(** * Budget-versus-actual variance report (app.py)

    A shallow embedding of the Streamlit script [app.py]: header trimming,
    schema validation, numeric coercion, the derived [Variance] and
    [Variance %] columns, the KPI totals, the gated insight request and the
    spreadsheet export.

    Modelling conventions.
    - A numeric cell is a binary64 float ([PrimFloat.float]), the dtype pandas
      gives a column after [to_numeric(..., errors="coerce").fillna(0)] and
      after any division; [nan] is pandas' missing-value marker, so a blank
      cell is [Num nan].  Columns that pandas would keep at an integer dtype
      are represented by the floats of the same value.
    - A column label is a [string] whose characters are read as code points
      below 256.
    - A data frame is an association list from labels to columns: column
      order and duplicated labels are both observable in the script.
    - The script's output is the sequence of widgets and outbound calls it
      issues, with early termination ([st.stop()]) and uncaught exceptions
      made explicit.
    - What the third-party libraries compute on their own (text-to-number
      conversion, number formatting, the remote completion service) is taken
      from an [environment] record; the binary encoding of the exported
      workbook stops at the worksheet grid handed to the writer. *)

From Stdlib Require Import List String Ascii Bool Arith Lia PrimFloat.
Import ListNotations.
Local Open Scope string_scope.
Local Open Scope nat_scope.
Local Open Scope list_scope.

(** ** Python strings *)

Module Str.

(** [str.isspace] on one character, for code points below 256. *)
Definition isspace (c : ascii) : bool :=
  let n := nat_of_ascii c in
  ((9 <=? n) && (n <=? 13)) || ((28 <=? n) && (n <=? 32))
  || (n =? 133) || (n =? 160).

Fixpoint lstrip (s : string) : string :=
  match s with
  | EmptyString => EmptyString
  | String c s' => if isspace c then lstrip s' else s
  end.

Fixpoint rstrip (s : string) : string :=
  match s with
  | EmptyString => EmptyString
  | String c s' =>
      match rstrip s' with
      | EmptyString => if isspace c then EmptyString else String c EmptyString
      | r => String c r
      end
  end.

(** [s.strip()] *)
Definition strip (s : string) : string := rstrip (lstrip s).





(** The line feed of an f-string's [\n]. *)
Definition nl : string := String (ascii_of_nat 10) EmptyString.

End Str.

(** ** Exceptions and fallible computations *)

Inductive exn : Type :=
| KeyError (label : string)
    (* label-based selection of an absent column *)
| NotASeries (label : string)
    (* a duplicated label selects a frame; the operation applied to it
       (numeric coercion, arithmetic feeding [np.where], a chart axis)
       needs a one-dimensional Series and raises *)
| TypeError.
    (* arithmetic on a text cell *)

Inductive result (A : Type) : Type :=
| Ok (a : A)
| Raise (e : exn).
Arguments Ok {A} a.
Arguments Raise {A} e.

Definition rbind {A B : Type} (m : result A) (k : A -> result B) : result B :=
  match m with
  | Ok a => k a
  | Raise e => Raise e
  end.

Notation "x <-? m ;; k" := (rbind m (fun x => k))
  (at level 61, m at next level, right associativity).

(** ** Tables *)

Inductive cell : Type :=
| Num (x : float)
| Text (s : string).

Definition series : Type := list cell.

Definition dataframe : Type := list (string * series).

(** [df.columns] *)
Definition columns (df : dataframe) : list string := map fst df.

(** [len(df)]: every column of a frame has this many cells. *)
Definition nrows (df : dataframe) : nat :=
  match df with
  | [] => 0
  | (_, s) :: _ => List.length s
  end.

(** The frame invariant of pandas: all columns have the same length. *)
Definition rectangular (df : dataframe) : Prop :=
  forall l s, In (l, s) df -> List.length s = nrows df.

(** [col in df.columns] *)
Definition has_column (df : dataframe) (col : string) : bool :=
  existsb (String.eqb col) (columns df).

(** The columns carrying label [col], in order. *)
Definition select (df : dataframe) (col : string) : list series :=
  map snd (filter (fun p => String.eqb col (fst p)) df).

(** [df[col]] where a Series is needed. *)
Definition getitem (df : dataframe) (col : string) : result series :=
  match select df col with
  | [] => Raise (KeyError col)
  | [s] => Ok s
  | _ :: _ :: _ => Raise (NotASeries col)
  end.

(** [df[col] = value]: every column labelled [col] is replaced in place;
    an absent label is appended as the last column. *)
Definition setitem (df : dataframe) (col : string) (value : series) : dataframe :=
  if has_column df col
  then map (fun p => if String.eqb col (fst p) then (fst p, value) else p) df
  else df ++ [(col, value)].

(** [df.columns = [c.strip() for c in df.columns]] *)
Definition strip_columns (df : dataframe) : dataframe :=
  map (fun p => (Str.strip (fst p), snd p)) df.

(** ** Numeric columns *)

Definition zip_with {A B C : Type} (f : A -> B -> C) : list A -> list B -> list C :=
  fix go (xs : list A) (ys : list B) : list C :=
    match xs, ys with
    | x :: xs', y :: ys' => f x y :: go xs' ys'
    | _, _ => []
    end.

(** The float values of a column; arithmetic on a text cell raises. *)
Fixpoint as_floats (s : series) : result (list float) :=
  match s with
  | [] => Ok []
  | Num x :: s' => xs <-? as_floats s' ;; Ok (x :: xs)
  | Text _ :: _ => Raise TypeError
  end.

Definition of_floats (xs : list float) : series := map Num xs.

(** [.fillna(0)] on one value. *)
Definition fillna0 (x : float) : float :=
  if PrimFloat.is_nan x then 0%float else x.

(** [a - b] on two Series. *)
Definition series_sub (a b : series) : result series :=
  xs <-? as_floats a ;;
  ys <-? as_floats b ;;
  Ok (of_floats (zip_with PrimFloat.sub xs ys)).

(** [a / b] on two Series. *)
Definition series_div (a b : series) : result (list float) :=
  xs <-? as_floats a ;;
  ys <-? as_floats b ;;
  Ok (zip_with PrimFloat.div xs ys).

(** [a * k] for a scalar [k]. *)
Definition scale (xs : list float) (k : float) : list float :=
  map (fun x => PrimFloat.mul x k) xs.

(** [s == 0] *)
Definition series_eq0 (s : series) : result (list bool) :=
  xs <-? as_floats s ;;
  Ok (map (fun x => PrimFloat.eqb x 0%float) xs).

(** [np.where(cond, x, ys)] with a scalar [x]. *)
Definition np_where (cond : list bool) (x : float) (ys : list float) : list float :=
  zip_with (fun (c : bool) y => if c then x else y) cond ys.

(** [s.sum()]: missing values count as zero.  The sum is taken left to
    right; the blocked reduction the numeric library applies to long
    arrays, which can round differently, is not modelled. *)
Definition series_sum (s : series) : result float :=
  xs <-? as_floats s ;;
  Ok (fold_left PrimFloat.add (map fillna0 xs) 0%float).

(** ** The environment of a run *)

Record environment : Type := {
  (* whether [from groq import Groq] succeeded *)
  GROQ_AVAILABLE : bool;
  (* [os.getenv("GROQ_API_KEY")] *)
  GROQ_API_KEY : option string;
  (* client construction, the chat completion and the extraction of the
     first choice's text: the text, or the message of the exception *)
  groq_chat : option string -> string -> list (string * string) -> string + string;
  (* the number a text cell denotes for [pd.to_numeric], [nan] when it
     denotes none *)
  text_to_float : string -> float;
  (* [format(x, spec)] on a float, as an f-string applies it *)
  format : string -> float -> string
}.

(** ** Worksheets *)

Inductive xcell : Type :=
| Empty
| Number (x : float)
| Str (s : string).

Record worksheet : Type := {
  header_row : list string;
  data_rows : list (list xcell)
}.

(** ** Widgets and outbound calls *)

Record figure : Type := {
  fig_x : series;
  fig_y : series;
  fig_title : string;
  fig_color : series;
  fig_text_auto : bool
}.

Inductive event : Type :=
| st_set_page_config (page_title layout page_icon : string)
| st_title (body : string)
| st_write (body : string)
| st_info (body : string)
| st_error (body : string)
| st_warning (body : string)
| st_subheader (body : string)
| st_dataframe (df : dataframe)
| st_columns (spec : nat)
| st_metric (column : nat) (label value : string) (delta : option string)
| st_plotly_chart (fig : figure)
| groq_create (api_key : option string) (model : string)
    (messages : list (string * string))
| st_download_button (label : string) (data : worksheet)
    (file_name mime : string).

(** ** Script runs

    A run issues events and then either goes on with a value, halts at
    [st.stop()], or dies with an uncaught exception. *)

Inductive flow (A : Type) : Type :=
| Next (a : A)
| Stopped
| Uncaught (e : exn).
Arguments Next {A} a.
Arguments Stopped {A}.
Arguments Uncaught {A} e.

Definition script (A : Type) : Type := (list event * flow A)%type.

Definition ret {A : Type} (a : A) : script A := ([], Next a).

Definition bind {A B : Type} (m : script A) (k : A -> script B) : script B :=
  match m with
  | (out, Next a) => let (out', r) := k a in (out ++ out', r)
  | (out, Stopped) => (out, Stopped)
  | (out, Uncaught e) => (out, Uncaught e)
  end.

Definition emit (e : event) : script unit := ([e], Next tt).

(** [st.stop()] *)
Definition st_stop {A : Type} : script A := ([], Stopped).

Definition lift {A : Type} (r : result A) : script A :=
  match r with
  | Ok a => ret a
  | Raise e => ([], Uncaught e)
  end.

Notation "x <- m ;; k" := (bind m (fun x => k))
  (at level 61, m at next level, right associativity).
Notation "m ;; k" := (bind m (fun _ => k))
  (at level 61, right associativity).

(** ** The pipeline of app.py *)

Inductive read_excel_result : Type :=
| ReadFailed (e : string)
| ReadOk (df : dataframe).

(** What [st.file_uploader] returned, with the outcome of
    [pd.read_excel] on it. *)
Definition upload : Type := option read_excel_result.

Definition required_cols : list string := ["Category"; "Budget"; "Actual"].

(** [all(col in df.columns for col in required_cols)] *)
Definition has_required (df : dataframe) : bool :=
  forallb (has_column df) required_cols.

(** The number [pd.to_numeric] reads in one cell; [nan] when there is none
    ([errors="coerce"]). *)
Definition coerce (env : environment) (c : cell) : float :=
  match c with
  | Num x => x
  | Text t => text_to_float env t
  end.

(** [pd.to_numeric(s, errors="coerce")] *)
Definition to_numeric (env : environment) (s : series) : list float :=
  map (coerce env) s.

(** [.fillna(0)] *)
Definition fillna (xs : list float) : list float := map fillna0 xs.

(** [df[col] = pd.to_numeric(df[col], errors="coerce").fillna(0)] *)
Definition convert_numeric (env : environment) (df : dataframe) (col : string)
  : result dataframe :=
  s <-? getitem df col ;;
  Ok (setitem df col (of_floats (fillna (to_numeric env s)))).

(** [for col in ["Budget", "Actual"]: ...] *)
Definition convert_all (env : environment) (df : dataframe) : result dataframe :=
  fold_left (fun acc col => d <-? acc ;; convert_numeric env d col)
            ["Budget"; "Actual"] (Ok df).

(** [df["Variance"] = df["Actual"] - df["Budget"]] *)
Definition add_variance (df : dataframe) : result dataframe :=
  actual <-? getitem df "Actual" ;;
  budget <-? getitem df "Budget" ;;
  v <-? series_sub actual budget ;;
  Ok (setitem df "Variance" v).

(** [df["Variance %"] = np.where(df["Budget"] == 0, np.nan,
                                 (df["Variance"] / df["Budget"]) * 100)] *)
Definition add_variance_pct (df : dataframe) : result dataframe :=
  budget <-? getitem df "Budget" ;;
  cond <-? series_eq0 budget ;;
  variance <-? getitem df "Variance" ;;
  budget' <-? getitem df "Budget" ;;
  ratio <-? series_div variance budget' ;;
  Ok (setitem df "Variance %"
        (of_floats (np_where cond nan (scale ratio 100%float)))).

(** Lines 50-55: normalization and the two derived columns. *)
Definition analyse (env : environment) (df : dataframe) : result dataframe :=
  d <-? convert_all env df ;;
  d <-? add_variance d ;;
  add_variance_pct d.

Record kpi : Type := {
  total_budget : float;
  total_actual : float;
  total_variance : float;
  total_var_pct : float
}.

(** Lines 61-64. *)
Definition kpi_summary (df : dataframe) : result kpi :=
  b <-? getitem df "Budget" ;;
  tb <-? series_sum b ;;
  a <-? getitem df "Actual" ;;
  ta <-? series_sum a ;;
  let tv := PrimFloat.sub ta tb in
  Ok {| total_budget := tb;
        total_actual := ta;
        total_variance := tv;
        total_var_pct :=
          if negb (PrimFloat.eqb tb 0%float)
          then PrimFloat.mul (PrimFloat.div tv tb) 100%float
          else 0%float |}.

(** [px.bar(df, x=..., y=..., title=..., color=..., text_auto=True)] *)
Definition px_bar (df : dataframe) (x y title color : string) : result figure :=
  xs <-? getitem df x ;;
  ys <-? getitem df y ;;
  cs <-? getitem df color ;;
  Ok {| fig_x := xs; fig_y := ys; fig_title := title; fig_color := cs;
        fig_text_auto := true |}.

(** Truthiness of [os.getenv(...)]: [None] and the empty string are false. *)
Definition truthy (v : option string) : bool :=
  match v with
  | Some (String _ _) => true
  | _ => false
  end.

Definition summary_text (env : environment) (k : kpi) : string :=
  String.concat ""
    [ "Total Budget: "; format env "" (total_budget k); Str.nl;
      "Total Actual: "; format env "" (total_actual k); Str.nl;
      "Total Variance: "; format env "" (total_variance k); Str.nl;
      "Berikan insight bisnis yang jelas dan actionable untuk UMKM." ].

Definition groq_model : string := "llama-3.1-8b-instant".

Definition groq_messages (env : environment) (k : kpi) : list (string * string) :=
  [ ("system", "Anda adalah konsultan usaha UMKM profesional.");
    ("user", summary_text env k) ].

(** Lines 86-110. *)
Definition insight (env : environment) (k : kpi) : script unit :=
  if negb (GROQ_AVAILABLE env) || negb (truthy (GROQ_API_KEY env))
  then emit (st_warning "Groq API tidak aktif. Tambahkan GROQ_API_KEY pada .env")
  else
    emit (groq_create (GROQ_API_KEY env) groq_model (groq_messages env k)) ;;
    match groq_chat env (GROQ_API_KEY env) groq_model (groq_messages env k) with
    | inl content => emit (st_write content)
    | inr e => emit (st_error (String.append "Error AI: " e))
    end.

(** What the writer puts in a worksheet cell: a missing value gives an
    empty cell ([na_rep=""]) and an infinity its text ([inf_rep="inf"]). *)
Definition excel_value (c : cell) : xcell :=
  match c with
  | Text s => Str s
  | Num x =>
      if PrimFloat.is_nan x then Empty
      else if PrimFloat.eqb x infinity then Str "inf"
      else if PrimFloat.eqb x neg_infinity then Str "-inf"
      else Number x
  end.

Definition excel_row (df : dataframe) (i : nat) : list xcell :=
  map (fun p => excel_value (nth i (snd p) (Num nan))) df.

(** [df.to_excel(writer, index=False)]: the header row, then one row per
    record, no index column. *)
Definition to_excel (df : dataframe) : worksheet :=
  {| header_row := columns df;
     data_rows := map (excel_row df) (seq 0 (nrows df)) |}.

Definition schema_message : string :=
  "File harus mengandung kolom: Category, Budget, Actual".

Definition xlsx_mime : string :=
  "application/vnd.openxmlformats-officedocument.spreadsheetml.sheet".

(** Lines 57-128, on the augmented frame. *)
Definition report (env : environment) (df : dataframe) : script unit :=
  emit (st_subheader "📋 Data & Variance") ;;
  emit (st_dataframe df) ;;
  k <- lift (kpi_summary df) ;;
  emit (st_columns 3) ;;
  emit (st_metric 0 "Total Budget"
          (String.append "Rp " (format env ",.0f" (total_budget k))) None) ;;
  emit (st_metric 1 "Total Actual"
          (String.append "Rp " (format env ",.0f" (total_actual k))) None) ;;
  emit (st_metric 2 "Total Variance"
          (String.append "Rp " (format env ",.0f" (total_variance k)))
          (Some (String.append (format env ".2f" (total_var_pct k)) "%"))) ;;
  emit (st_subheader "📈 Visualisasi Variance") ;;
  fig <- lift (px_bar df "Category" "Variance" "Variance per Category" "Variance") ;;
  emit (st_plotly_chart fig) ;;
  emit (st_subheader "🤖 Insight Otomatis (AI)") ;;
  insight env k ;;
  emit (st_download_button "⬇️ Download Hasil Analisis (Excel)"
          (to_excel df) "umkm_analysis.xlsx" xlsx_mime).

(** The whole script. *)
Definition app (env : environment) (uploaded_file : upload) : script unit :=
  emit (st_set_page_config "Konsultan Usaha UMKM" "wide" "💼") ;;
  emit (st_title "💼 Aplikasi Konsultan Usaha UMKM") ;;
  emit (st_write "Analisis Keuangan, Variance, KPI, & Insight Otomatis") ;;
  df <- match uploaded_file with
        | None =>
            emit (st_info "Silakan upload file Excel Anda.") ;; st_stop
        | Some (ReadFailed e) =>
            emit (st_error (String.append "Gagal membaca Excel: " e)) ;; st_stop
        | Some (ReadOk df) => ret df
        end ;;
  let df := strip_columns df in
  (if negb (has_required df)
   then emit (st_error schema_message) ;; st_stop
   else ret tt) ;;
  df <- lift (analyse env df) ;;
  report env df.

(** ** Vocabulary of the statements *)

(** The number held in row [i] of the one column labelled [col]. *)
Definition number_at (df : dataframe) (col : string) (i : nat) : option float :=
  match getitem df col with
  | Ok s =>
      match nth_error s i with
      | Some (Num x) => Some x
      | _ => None
      end
  | Raise _ => None
  end.

(** The table a run shows with [st.dataframe]. *)
Definition displays (run : script unit) (df : dataframe) : Prop :=
  In (st_dataframe df) (fst run).

(** The worksheet a run offers for download. *)
Definition exports (run : script unit) (data : worksheet) : Prop :=
  exists label file_name mime,
    In (st_download_button label data file_name mime) (fst run).

(** The cell of a worksheet at data row [i], column [j]. *)
Definition sheet_cell (w : worksheet) (i j : nat) : option xcell :=
  match nth_error (data_rows w) i with
  | Some r => nth_error r j
  | None => None
  end.


(** The derived columns, from the normalized [Budget] and [Actual]. *)
Definition variance_of (actual budget : list float) : list float :=
  zip_with PrimFloat.sub actual budget.

Definition variance_pct_of (actual budget : list float) : list float :=
  np_where (map (fun x => PrimFloat.eqb x 0%float) budget) nan
    (scale (zip_with PrimFloat.div (variance_of actual budget) budget) 100%float).

(** The events of a run that precede the uploaded table. *)
Definition page_head : list event :=
  [ st_set_page_config "Konsultan Usaha UMKM" "wide" "💼";
    st_title "💼 Aplikasi Konsultan Usaha UMKM";
    st_write "Analisis Keuangan, Variance, KPI, & Insight Otomatis" ].

(** The events of [report] before the chart is built. *)
Definition table_and_metrics (env : environment) (df : dataframe) (k : kpi)
  : list event :=
  [ st_subheader "📋 Data & Variance";
    st_dataframe df;
    st_columns 3;
    st_metric 0 "Total Budget"
      (String.append "Rp " (format env ",.0f" (total_budget k))) None;
    st_metric 1 "Total Actual"
      (String.append "Rp " (format env ",.0f" (total_actual k))) None;
    st_metric 2 "Total Variance"
      (String.append "Rp " (format env ",.0f" (total_variance k)))
      (Some (String.append (format env ".2f" (total_var_pct k)) "%"));
    st_subheader "📈 Visualisasi Variance" ].

Definition insight_header : event :=
  st_subheader "🤖 Insight Otomatis (AI)".

(** The events of [report] up to and including the insight header. *)
Definition report_head (env : environment) (df : dataframe) (k : kpi)
  (fig : figure) : list event :=
  table_and_metrics env df k ++ [st_plotly_chart fig; insight_header].

Definition download_of (df : dataframe) : event :=
  st_download_button "⬇️ Download Hasil Analisis (Excel)"
    (to_excel df) "umkm_analysis.xlsx" xlsx_mime.

(** The frame lines 50-55 build from a trimmed frame [d] whose [Budget]
    and [Actual] columns are [sb] and [sa]. *)
Definition augmented (env : environment) (d : dataframe) (sb sa : series)
  : dataframe :=
  let budget := fillna (to_numeric env sb) in
  let actual := fillna (to_numeric env sa) in
  setitem
    (setitem
       (setitem (setitem d "Budget" (of_floats budget))
          "Actual" (of_floats actual))
       "Variance" (of_floats (variance_of actual budget)))
    "Variance %" (of_floats (variance_pct_of actual budget)).

(** The left-to-right float sum of a column, starting from zero. *)
Definition float_sum (xs : list float) : float :=
  fold_left PrimFloat.add xs 0%float.

(** The totals in closed form, from the normalized columns. *)
Definition kpi_of (budget actual : list float) : kpi :=
  let tb := float_sum budget in
  let ta := float_sum actual in
  let tv := PrimFloat.sub ta tb in
  {| total_budget := tb;
     total_actual := ta;
     total_variance := tv;
     total_var_pct :=
       if negb (PrimFloat.eqb tb 0%float)
       then PrimFloat.mul (PrimFloat.div tv tb) 100%float
       else 0%float |}.

(** The gate of the insight step is closed. *)
Definition insight_disabled (env : environment) : Prop :=
  GROQ_AVAILABLE env = false \/ truthy (GROQ_API_KEY env) = false.

Definition insight_warning : event :=
  st_warning "Groq API tidak aktif. Tambahkan GROQ_API_KEY pada .env".


(** ** Sample runs *)

Module Sample.

Definition digit (c : ascii) : option float :=
  let n := nat_of_ascii c in
  if (48 <=? n) && (n <=? 57)
  then Some (nth (n - 48)
               [0; 1; 2; 3; 4; 5; 6; 7; 8; 9]%float 0%float)
  else None.

Fixpoint digits (acc : float) (s : string) : float :=
  match s with
  | EmptyString => acc
  | String c s' =>
      match digit c with
      | Some d => digits (PrimFloat.add (PrimFloat.mul acc 10%float) d) s'
      | None => nan
      end
  end.

(** Unsigned decimal integers are numbers; any other text is not. *)
Definition parse (s : string) : float :=
  match s with
  | EmptyString => nan
  | _ => digits 0%float s
  end.

Definition show (spec : string) (x : float) : string :=
  if PrimFloat.is_nan x then "nan" else String.append "float:" spec.

(** No client library, no credential. *)
Definition offline : environment :=
  {| GROQ_AVAILABLE := false;
     GROQ_API_KEY := None;
     groq_chat := fun _ _ _ => inr "unreachable";
     text_to_float := parse;
     format := show |}.

(** Client and credential present, the service answers. *)
Definition online : environment :=
  {| GROQ_AVAILABLE := true;
     GROQ_API_KEY := Some "gsk_test";
     groq_chat := fun _ _ _ => inl "Kurangi biaya sewa.";
     text_to_float := parse;
     format := show |}.

(** Client and credential present, the call raises. *)
Definition failing : environment :=
  {| GROQ_AVAILABLE := true;
     GROQ_API_KEY := Some "gsk_test";
     groq_chat := fun _ _ _ => inr "Connection error.";
     text_to_float := parse;
     format := show |}.

(** The rows [("Rent", 1000, 1200), ("Supplies", 500, 400)]. *)
Definition rent_supplies : dataframe :=
  [ ("Category", [Text "Rent"; Text "Supplies"]);
    ("Budget", [Num 1000; Num 500]%float);
    ("Actual", [Num 1200; Num 400]%float) ].

(** Padded headers, a text budget, a blank actual, a zero budget and an
    extra column. *)
Definition messy : dataframe :=
  [ (" Category", [Text "Rent"; Text "Fees"; Text "Misc"]);
    ("Budget ", [Text "1000"; Text "n/a"; Num 0]%float);
    ("Note", [Text "fixed"; Num nan; Text "x"]);
    (" Actual ", [Num 1200; Num 50; Num nan]%float) ].

(** What the script shows for [Sample.rent_supplies]. *)
Definition rent_supplies_shown : dataframe :=
  [ ("Category", [Text "Rent"; Text "Supplies"]);
    ("Budget", [Num 1000; Num 500]%float);
    ("Actual", [Num 1200; Num 400]%float);
    ("Variance", [Num 200; Num (-100)]%float);
    ("Variance %", [Num 20; Num (-20)]%float) ].

(** What the script shows for [Sample.messy]. *)
Definition messy_shown : dataframe :=
  [ ("Category", [Text "Rent"; Text "Fees"; Text "Misc"]);
    ("Budget", [Num 1000; Num 0; Num 0]%float);
    ("Note", [Text "fixed"; Num nan; Text "x"]);
    ("Actual", [Num 1200; Num 50; Num 0]%float);
    ("Variance", [Num 200; Num 50; Num 0]%float);
    ("Variance %", [Num 20; Num nan; Num nan]%float) ].

(** A sheet that brings its own [Variance] column. *)
Definition own_variance : dataframe :=
  [ ("Category", [Text "Rent"]);
    ("Budget", [Num 1000]%float);
    ("Actual", [Num 1200]%float);
    ("Variance", [Num 999]%float) ].

Definition own_variance_shown : dataframe :=
  [ ("Category", [Text "Rent"]);
    ("Budget", [Num 1000]%float);
    ("Actual", [Num 1200]%float);
    ("Variance", [Num 200]%float);
    ("Variance %", [Num 20]%float) ].


(** After trimming, two columns are labelled [Budget]. *)
Definition twice_budget : dataframe :=
  [ ("Category", [Text "Rent"]);
    ("Budget", [Num 1000]%float);
    (" Budget", [Num 900]%float);
    ("Actual", [Num 1200]%float) ].

End Sample.


(** ** Further sample inputs *)

Module More.




(** Client library present, credential set to the empty string. *)
Definition empty_key : environment :=
  {| GROQ_AVAILABLE := true;
     GROQ_API_KEY := Some "";
     groq_chat := fun _ _ _ => inl "unreachable";
     text_to_float := Sample.parse;
     format := Sample.show |}.


(** The chart of [Sample.rent_supplies]. *)
Definition rent_supplies_fig : figure :=
  {| fig_x := [Text "Rent"; Text "Supplies"];
     fig_y := [Num 200; Num (-100)]%float;
     fig_title := "Variance per Category";
     fig_color := [Num 200; Num (-100)]%float;
     fig_text_auto := true |}.


(** The figures of [Sample.rent_supplies] under other categories, with a
    column of remarks. *)
Definition other_categories : dataframe :=
  [ ("Remark", [Text "due"; Num nan]);
    ("Category", [Text "Sewa"; Text "Bahan"]);
    ("Budget", [Num 1000; Num 500]%float);
    ("Actual", [Num 1200; Num 400]%float) ].

Definition other_categories_shown : dataframe :=
  [ ("Remark", [Text "due"; Num nan]);
    ("Category", [Text "Sewa"; Text "Bahan"]);
    ("Budget", [Num 1000; Num 500]%float);
    ("Actual", [Num 1200; Num 400]%float);
    ("Variance", [Num 200; Num (-100)]%float);
    ("Variance %", [Num 20; Num (-20)]%float) ].

End More.

(** * Properties *)

Ltac split_In H :=
  repeat (rewrite in_app_iff in H); simpl in H;
  repeat match type of H with _ \/ _ => destruct H as [H|H] end;
  try discriminate H; try contradiction.

Tactic Notation "nth_event" integer(n) := do n right; left; reflexivity.


(** ** Lists *)

Section ListFacts.

Context {A B C : Type}.

Lemma zip_with_length (f : A -> B -> C) (xs : list A) (ys : list B) :
  List.length xs = List.length ys ->
  List.length (zip_with f xs ys) = List.length xs.
Proof.
  revert ys; induction xs as [|x xs IH]; intros [|y ys] H; simpl in *;
    try discriminate; auto.
Qed.

Lemma zip_with_nth_error (f : A -> B -> C) (xs : list A) (ys : list B) i x y :
  nth_error xs i = Some x -> nth_error ys i = Some y ->
  nth_error (zip_with f xs ys) i = Some (f x y).
Proof.
  revert ys i; induction xs as [|x' xs IH]; intros [|y' ys] [|i] Hx Hy;
    simpl in *; try discriminate.
  - now inversion Hx; inversion Hy.
  - now apply IH.
Qed.

Lemma zip_with_nth_error_inv (f : A -> B -> C) (xs : list A) (ys : list B) i z :
  nth_error (zip_with f xs ys) i = Some z ->
  exists x y, nth_error xs i = Some x /\ nth_error ys i = Some y /\ z = f x y.
Proof.
  revert ys i; induction xs as [|x' xs IH]; intros [|y' ys] [|i] H;
    simpl in *; try discriminate.
  - inversion H. now exists x', y'.
  - now apply IH.
Qed.

End ListFacts.

Lemma nth_error_map_seq {A : Type} (f : nat -> A) n i :
  i < n -> nth_error (map f (seq 0 n)) i = Some (f i).
Proof.
  intros H. rewrite nth_error_map, nth_error_seq.
  destruct (Nat.ltb_spec i n); [reflexivity | lia].
Qed.

(** ** Frames: selection and assignment by label *)

Section FrameFacts.

Implicit Types (df : dataframe) (c l : string) (v s : series).

Lemma has_column_select df c :
  has_column df c = false <-> select df c = [].
Proof.
  unfold has_column, select, columns.
  induction df as [|[l s] df IH]; simpl; [tauto|].
  destruct (String.eqb c l); simpl; [split; discriminate | exact IH].
Qed.

Lemma has_column_In df c : has_column df c = true <-> In c (columns df).
Proof.
  unfold has_column. rewrite existsb_exists. split.
  - intros (x & Hx & E). apply String.eqb_eq in E. now subst.
  - intros H. exists c. split; [exact H | apply String.eqb_refl].
Qed.

Lemma select_app df1 df2 c :
  select (df1 ++ df2) c = select df1 c ++ select df2 c.
Proof. unfold select. now rewrite filter_app, map_app. Qed.

Lemma select_replace df c v c' :
  select (map (fun p => if String.eqb c (fst p) then (fst p, v) else p) df) c'
  = if String.eqb c c' then map (fun _ => v) (select df c) else select df c'.
Proof.
  unfold select. induction df as [|[l s] df IH]; simpl.
  - now destruct (String.eqb c c').
  - destruct (String.eqb c l) eqn:Ecl; simpl.
    + apply String.eqb_eq in Ecl; subst l.
      rewrite (String.eqb_sym c' c).
      destruct (String.eqb c c'); simpl; now rewrite IH.
    + destruct (String.eqb c c') eqn:Ecc'.
      * apply String.eqb_eq in Ecc'; subst c'. now rewrite Ecl.
      * destruct (String.eqb c' l); simpl; now rewrite IH.
Qed.

Lemma select_setitem df c v c' :
  select (setitem df c v) c'
  = if String.eqb c c'
    then match select df c with
         | [] => [v]
         | ss => map (fun _ => v) ss
         end
    else select df c'.
Proof.
  unfold setitem. destruct (has_column df c) eqn:H.
  - rewrite select_replace. destruct (String.eqb c c'); [|reflexivity].
    destruct (select df c) eqn:E; [|reflexivity].
    apply has_column_select in E. congruence.
  - rewrite select_app. apply has_column_select in H.
    unfold select at 2; simpl. rewrite (String.eqb_sym c' c).
    destruct (String.eqb c c') eqn:E; simpl.
    + apply String.eqb_eq in E; subst c'. now rewrite H.
    + apply app_nil_r.
Qed.

Lemma getitem_setitem_ne df c v c' :
  c <> c' -> getitem (setitem df c v) c' = getitem df c'.
Proof.
  intros H. unfold getitem. rewrite select_setitem.
  apply String.eqb_neq in H. now rewrite H.
Qed.

Lemma getitem_setitem_eq df c v :
  getitem (setitem df c v) c
  = match select df c with
    | _ :: _ :: _ => Raise (NotASeries c)
    | _ => Ok v
    end.
Proof.
  unfold getitem. rewrite select_setitem, String.eqb_refl.
  destruct (select df c) as [|s1 [|s2 ss]]; reflexivity.
Qed.

Lemma getitem_Ok_select df c s : getitem df c = Ok s <-> select df c = [s].
Proof.
  unfold getitem. destruct (select df c) as [|s1 [|s2 ss]]; split; intros H;
    try discriminate; congruence.
Qed.

Lemma columns_setitem df c v :
  columns (setitem df c v)
  = if has_column df c then columns df else columns df ++ [c].
Proof.
  unfold setitem, columns. destruct (has_column df c).
  - rewrite map_map. apply map_ext. intros [l s]; simpl.
    now destruct (String.eqb c l).
  - now rewrite map_app.
Qed.

Lemma nth_error_setitem df c v j l s :
  nth_error df j = Some (l, s) ->
  nth_error (setitem df c v) j = Some (l, if String.eqb c l then v else s).
Proof.
  intros H. unfold setitem. destruct (has_column df c) eqn:Hc.
  - rewrite nth_error_map, H. simpl. now destruct (String.eqb c l).
  - rewrite nth_error_app1 by (apply nth_error_Some; congruence).
    rewrite H. destruct (String.eqb c l) eqn:E; [|reflexivity].
    apply String.eqb_eq in E; subst l.
    assert (In c (columns df)) as Hin.
    { unfold columns. apply in_map_iff. exists (c, s). split; [reflexivity|].
      eapply nth_error_In; eauto. }
    apply has_column_In in Hin. congruence.
Qed.

Lemma In_setitem df c v l s :
  In (l, s) (setitem df c v) ->
  (l = c /\ s = v) \/ (l <> c /\ In (l, s) df).
Proof.
  unfold setitem. destruct (has_column df c) eqn:Hc.
  - rewrite in_map_iff. intros ([l' s'] & E & Hin). simpl in E.
    destruct (String.eqb c l') eqn:Ec.
    + apply String.eqb_eq in Ec. inversion E; subst. now left.
    + apply String.eqb_neq in Ec. inversion E; subst. right. split; congruence.
  - rewrite in_app_iff. simpl. intros [Hin|[E|[]]].
    + destruct (String.eqb_spec l c) as [->|Hne].
      * left. split; [reflexivity|].
        exfalso. assert (In c (columns df)) as Hc'
          by (unfold columns; apply in_map_iff; now exists (c, s)).
        apply has_column_In in Hc'. congruence.
      * now right.
    + inversion E; subst. now left.
Qed.

Lemma nrows_setitem df c v :
  List.length v = nrows df -> nrows (setitem df c v) = nrows df.
Proof.
  intros H. unfold setitem. destruct (has_column df c) eqn:Hc.
  - destruct df as [|[l s] df]; [reflexivity|]. simpl.
    destruct (String.eqb c l); simpl; [exact H | reflexivity].
  - destruct df as [|[l s] df]; [exact H | reflexivity].
Qed.

Lemma rectangular_setitem df c v :
  rectangular df -> List.length v = nrows df -> rectangular (setitem df c v).
Proof.
  intros R H l s Hin. rewrite nrows_setitem by exact H.
  apply In_setitem in Hin. destruct Hin as [[-> ->]|[_ Hin]]; [exact H|].
  eapply R; eauto.
Qed.

Lemma nth_error_strip_columns df j l s :
  nth_error df j = Some (l, s) ->
  nth_error (strip_columns df) j = Some (Str.strip l, s).
Proof. intros H. unfold strip_columns. now rewrite nth_error_map, H. Qed.

Lemma columns_strip_columns df :
  columns (strip_columns df) = map Str.strip (columns df).
Proof. unfold columns, strip_columns. now rewrite !map_map. Qed.

Lemma nrows_strip_columns df : nrows (strip_columns df) = nrows df.
Proof. now destruct df as [|[l s] df]. Qed.

Lemma rectangular_strip_columns df :
  rectangular df -> rectangular (strip_columns df).
Proof.
  intros R l s Hin. rewrite nrows_strip_columns.
  unfold strip_columns in Hin. apply in_map_iff in Hin.
  destruct Hin as ([l' s'] & E & Hin). inversion E; subst. eapply R; eauto.
Qed.

Lemma getitem_In df c s : getitem df c = Ok s -> In (c, s) df.
Proof.
  intros H. apply getitem_Ok_select in H.
  assert (In s (select df c)) as Hs by (rewrite H; now left).
  unfold select in Hs. apply in_map_iff in Hs.
  destruct Hs as ([l s'] & E & Hin). simpl in E; subst s'.
  apply filter_In in Hin. destruct Hin as [Hin El].
  apply String.eqb_eq in El. simpl in El. now subst l.
Qed.

End FrameFacts.

(** ** Numeric columns *)

Lemma as_floats_of_floats xs : as_floats (of_floats xs) = Ok xs.
Proof.
  unfold of_floats. induction xs as [|x xs IH]; simpl; [reflexivity|].
  now rewrite IH.
Qed.

Lemma of_floats_length xs : List.length (of_floats xs) = List.length xs.
Proof. apply length_map. Qed.

Lemma fillna0_defined x : PrimFloat.is_nan (fillna0 x) = false.
Proof.
  unfold fillna0. destruct (PrimFloat.is_nan x) eqn:E; [reflexivity | exact E].
Qed.

Lemma fillna0_keeps x : PrimFloat.is_nan x = false -> fillna0 x = x.
Proof. intros H. unfold fillna0. now rewrite H. Qed.

Lemma fillna_idempotent xs : map fillna0 (fillna xs) = fillna xs.
Proof.
  unfold fillna. rewrite map_map. apply map_ext. intros x.
  apply fillna0_keeps, fillna0_defined.
Qed.

Lemma normalize_length env s :
  List.length (fillna (to_numeric env s)) = List.length s.
Proof. unfold fillna, to_numeric. now rewrite !length_map. Qed.

Lemma series_sub_floats xs ys :
  series_sub (of_floats xs) (of_floats ys)
  = Ok (of_floats (zip_with PrimFloat.sub xs ys)).
Proof. unfold series_sub. now rewrite !as_floats_of_floats. Qed.

Lemma series_div_floats xs ys :
  series_div (of_floats xs) (of_floats ys) = Ok (zip_with PrimFloat.div xs ys).
Proof. unfold series_div. now rewrite !as_floats_of_floats. Qed.

Lemma series_eq0_floats xs :
  series_eq0 (of_floats xs) = Ok (map (fun x => PrimFloat.eqb x 0%float) xs).
Proof. unfold series_eq0. now rewrite as_floats_of_floats. Qed.

Lemma series_sum_normalized env s :
  series_sum (of_floats (fillna (to_numeric env s)))
  = Ok (fold_left PrimFloat.add (fillna (to_numeric env s)) 0%float).
Proof.
  unfold series_sum. rewrite as_floats_of_floats. simpl.
  now rewrite fillna_idempotent.
Qed.

Lemma variance_pct_nth_error actual budget i a b :
  nth_error actual i = Some a -> nth_error budget i = Some b ->
  nth_error (variance_pct_of actual budget) i
  = Some (if PrimFloat.eqb b 0%float then nan
          else PrimFloat.mul (PrimFloat.div (PrimFloat.sub a b) b) 100%float).
Proof.
  intros Ha Hb. unfold variance_pct_of, np_where, scale, variance_of.
  rewrite (zip_with_nth_error _ _ _ i (PrimFloat.eqb b 0%float)
             (PrimFloat.mul (PrimFloat.div (PrimFloat.sub a b) b) 100%float)).
  - reflexivity.
  - now rewrite nth_error_map, Hb.
  - rewrite nth_error_map.
    rewrite (zip_with_nth_error PrimFloat.div _ _ i (PrimFloat.sub a b) b);
      [reflexivity | | exact Hb].
    now apply zip_with_nth_error.
Qed.

Lemma variance_pct_length actual budget :
  List.length actual = List.length budget ->
  List.length (variance_pct_of actual budget) = List.length budget.
Proof.
  intros H. unfold variance_pct_of, np_where, scale, variance_of.
  rewrite zip_with_length; rewrite !length_map; [reflexivity|].
  rewrite zip_with_length; rewrite zip_with_length; congruence.
Qed.

(** ** The augmented frame in closed form *)

Lemma getitem_setitem_same df c v s :
  getitem df c = Ok s -> getitem (setitem df c v) c = Ok v.
Proof.
  intros H. rewrite getitem_setitem_eq.
  apply getitem_Ok_select in H. now rewrite H.
Qed.

Lemma analyse_Ok env d df :
  analyse env d = Ok df ->
  exists sb sa,
    getitem d "Budget" = Ok sb /\ getitem d "Actual" = Ok sa /\
    (forall s1 s2 ss, select d "Variance" <> s1 :: s2 :: ss) /\
    df = augmented env d sb sa.
Proof.
  unfold analyse, convert_all, convert_numeric. cbn [fold_left rbind].
  destruct (getitem d "Budget") as [sb|] eqn:Hb; [|discriminate].
  cbn [rbind].
  rewrite getitem_setitem_ne by discriminate.
  destruct (getitem d "Actual") as [sa|] eqn:Ha; [|discriminate].
  cbn [rbind]. unfold add_variance.
  set (budget := fillna (to_numeric env sb)).
  set (actual := fillna (to_numeric env sa)).
  set (d1 := setitem d "Budget" (of_floats budget)).
  assert (getitem d1 "Budget" = Ok (of_floats budget)) as Hb1
    by (eapply getitem_setitem_same; eauto).
  assert (getitem d1 "Actual" = Ok sa) as Ha1
    by (unfold d1; now rewrite getitem_setitem_ne by discriminate).
  set (d2 := setitem d1 "Actual" (of_floats actual)).
  assert (getitem d2 "Actual" = Ok (of_floats actual)) as Ha2
    by (eapply getitem_setitem_same; eauto).
  assert (getitem d2 "Budget" = Ok (of_floats budget)) as Hb2
    by (unfold d2; now rewrite getitem_setitem_ne by discriminate).
  rewrite Ha2, Hb2. cbn [rbind]. rewrite series_sub_floats. cbn [rbind].
  set (d3 := setitem d2 "Variance" (of_floats (zip_with PrimFloat.sub actual budget))).
  unfold add_variance_pct.
  assert (getitem d3 "Budget" = Ok (of_floats budget)) as Hb3
    by (unfold d3; now rewrite getitem_setitem_ne by discriminate).
  rewrite Hb3. cbn [rbind]. rewrite series_eq0_floats. cbn [rbind].
  unfold d3 at 1. rewrite getitem_setitem_eq.
  assert (select d2 "Variance" = select d "Variance") as Hsel.
  { unfold d2, d1. now rewrite !select_setitem. }
  rewrite Hsel.
  destruct (select d "Variance") as [|s1 [|s2 ss]] eqn:Hv; cbn [rbind];
    try discriminate;
    rewrite series_div_floats; cbn [rbind]; intros H; inversion H;
    exists sb, sa; repeat split; try reflexivity; intros; discriminate.
Qed.

(** Conversely, the pipeline does not fail on a frame whose three labels
    select Series. *)
Lemma analyse_total env d sb sa :
  getitem d "Budget" = Ok sb -> getitem d "Actual" = Ok sa ->
  (forall s1 s2 ss, select d "Variance" <> s1 :: s2 :: ss) ->
  analyse env d = Ok (augmented env d sb sa).
Proof.
  intros Hb Ha Hv.
  unfold analyse, convert_all, convert_numeric. cbn [fold_left rbind].
  rewrite Hb. cbn [rbind]. rewrite getitem_setitem_ne by discriminate.
  rewrite Ha. cbn [rbind]. unfold add_variance.
  rewrite (getitem_setitem_same _ "Actual" _ sa)
    by (now rewrite getitem_setitem_ne by discriminate).
  rewrite getitem_setitem_ne by discriminate.
  rewrite (getitem_setitem_same _ "Budget" _ sb) by exact Hb.
  cbn [rbind]. rewrite series_sub_floats. cbn [rbind].
  unfold add_variance_pct.
  rewrite !getitem_setitem_ne by discriminate.
  rewrite (getitem_setitem_same _ "Budget" _ sb) by exact Hb.
  cbn [rbind]. rewrite series_eq0_floats. cbn [rbind].
  rewrite getitem_setitem_eq, !select_setitem. cbn [String.eqb Ascii.eqb Bool.eqb].
  destruct (select d "Variance") as [|s1 [|s2 ss]] eqn:E; cbn [rbind];
    try (exfalso; eapply Hv; reflexivity);
    now rewrite series_div_floats.
Qed.

Section AugmentedFacts.

Variable env : environment.
Variables (d : dataframe) (sb sa : series).
Hypothesis Hb : getitem d "Budget" = Ok sb.
Hypothesis Ha : getitem d "Actual" = Ok sa.

Let budget := fillna (to_numeric env sb).
Let actual := fillna (to_numeric env sa).

Lemma augmented_Budget :
  getitem (augmented env d sb sa) "Budget" = Ok (of_floats budget).
Proof.
  unfold augmented. rewrite !getitem_setitem_ne by discriminate.
  eapply getitem_setitem_same; eauto.
Qed.

Lemma augmented_Actual :
  getitem (augmented env d sb sa) "Actual" = Ok (of_floats actual).
Proof.
  unfold augmented. rewrite !getitem_setitem_ne by discriminate.
  eapply getitem_setitem_same.
  rewrite getitem_setitem_ne by discriminate. eauto.
Qed.

Lemma augmented_Variance :
  (forall s1 s2 ss, select d "Variance" <> s1 :: s2 :: ss) ->
  getitem (augmented env d sb sa) "Variance"
  = Ok (of_floats (variance_of actual budget)).
Proof.
  intros Hv. unfold augmented. rewrite getitem_setitem_ne by discriminate.
  rewrite getitem_setitem_eq, !select_setitem.
  cbn [String.eqb Ascii.eqb Bool.eqb].
  destruct (select d "Variance") as [|s1 [|s2 ss]] eqn:E; try reflexivity.
  exfalso. eapply Hv; reflexivity.
Qed.

Lemma augmented_Variance_pct s :
  In ("Variance %", s) (augmented env d sb sa) ->
  s = of_floats (variance_pct_of actual budget).
Proof.
  unfold augmented. intros H. apply In_setitem in H.
  destruct H as [[_ ->]|[Hne _]]; [reflexivity | congruence].
Qed.

Lemma augmented_has_Variance_pct :
  has_column (augmented env d sb sa) "Variance %" = true.
Proof.
  unfold augmented. apply has_column_In. rewrite columns_setitem.
  match goal with |- context [has_column ?f "Variance %"] =>
    destruct (has_column f "Variance %") eqn:E end.
  - now apply has_column_In.
  - apply in_or_app. right. now left.
Qed.

(** Assignment keeps every column of [d] at its position; the cells change
    only under the four assigned labels. *)
Lemma augmented_nth_error j l s :
  nth_error d j = Some (l, s) ->
  nth_error (augmented env d sb sa) j
  = Some (l,
          if String.eqb "Variance %" l
          then of_floats (variance_pct_of actual budget)
          else if String.eqb "Variance" l
          then of_floats (variance_of actual budget)
          else if String.eqb "Actual" l then of_floats actual
          else if String.eqb "Budget" l then of_floats budget
          else s).
Proof.
  intros H. unfold augmented.
  erewrite nth_error_setitem; [reflexivity|].
  erewrite nth_error_setitem; [reflexivity|].
  erewrite nth_error_setitem; [reflexivity|].
  erewrite nth_error_setitem; [reflexivity|]. exact H.
Qed.

Lemma augmented_columns :
  columns (augmented env d sb sa)
  = columns d
    ++ (if has_column d "Variance" then [] else ["Variance"])
    ++ (if has_column d "Variance %" then [] else ["Variance %"]).
Proof.
  assert (forall f c c' v, c <> c' ->
            has_column (setitem f c v) c' = has_column f c') as Hne.
  { intros f c c' v Hcc. unfold has_column at 1. rewrite columns_setitem.
    destruct (has_column f c); [reflexivity|].
    rewrite existsb_app. simpl. apply String.eqb_neq in Hcc.
    rewrite (String.eqb_sym c' c), Hcc. now rewrite !orb_false_r. }
  assert (has_column d "Budget" = true) as HB.
  { apply has_column_In. unfold columns. apply in_map_iff.
    exists ("Budget", sb). split; [reflexivity | now apply getitem_In]. }
  assert (has_column d "Actual" = true) as HA.
  { apply has_column_In. unfold columns. apply in_map_iff.
    exists ("Actual", sa). split; [reflexivity | now apply getitem_In]. }
  unfold augmented. rewrite !columns_setitem.
  rewrite !Hne by discriminate. rewrite HB, HA.
  destruct (has_column d "Variance"), (has_column d "Variance %"); simpl;
    rewrite ?app_nil_r, <- ?app_assoc; reflexivity.
Qed.

Hypothesis Hrect : rectangular d.

Lemma normalized_lengths :
  List.length budget = nrows d /\ List.length actual = nrows d.
Proof.
  unfold budget, actual. rewrite !normalize_length. split.
  - apply (Hrect "Budget"). now apply getitem_In.
  - apply (Hrect "Actual"). now apply getitem_In.
Qed.

Lemma augmented_rectangular :
  rectangular (augmented env d sb sa)
  /\ nrows (augmented env d sb sa) = nrows d.
Proof.
  destruct normalized_lengths as [Lb La].
  assert (List.length (variance_of actual budget) = nrows d) as Lv.
  { unfold variance_of. rewrite zip_with_length; congruence. }
  assert (List.length (variance_pct_of actual budget) = nrows d) as Lp.
  { rewrite variance_pct_length; congruence. }
  unfold augmented. fold budget actual.
  set (d1 := setitem d "Budget" (of_floats budget)).
  assert (rectangular d1 /\ nrows d1 = nrows d) as [R1 N1].
  { split; [apply rectangular_setitem | apply nrows_setitem];
      rewrite ?of_floats_length; auto. }
  set (d2 := setitem d1 "Actual" (of_floats actual)).
  assert (rectangular d2 /\ nrows d2 = nrows d) as [R2 N2].
  { split; [apply rectangular_setitem | rewrite <- N1; apply nrows_setitem];
      rewrite ?of_floats_length; auto; congruence. }
  set (d3 := setitem d2 "Variance" (of_floats (variance_of actual budget))).
  assert (rectangular d3 /\ nrows d3 = nrows d) as [R3 N3].
  { split; [apply rectangular_setitem | rewrite <- N2; apply nrows_setitem];
      rewrite ?of_floats_length; auto; congruence. }
  split; [apply rectangular_setitem | rewrite <- N3; apply nrows_setitem];
    rewrite ?of_floats_length; auto; congruence.
Qed.

End AugmentedFacts.

(** ** Runs of the script *)

Lemma insight_disabled_run env k :
  insight_disabled env -> insight env k = ([insight_warning], Next tt).
Proof.
  intros [H|H]; unfold insight; rewrite H; simpl; [reflexivity|].
  now rewrite orb_true_r.
Qed.

Lemma insight_enabled_run env k :
  GROQ_AVAILABLE env = true -> truthy (GROQ_API_KEY env) = true ->
  insight env k
  = ([ groq_create (GROQ_API_KEY env) groq_model (groq_messages env k);
       match groq_chat env (GROQ_API_KEY env) groq_model (groq_messages env k) with
       | inl content => st_write content
       | inr e => st_error (String.append "Error AI: " e)
       end ], Next tt).
Proof.
  intros Ha Hk. unfold insight. rewrite Ha, Hk. simpl.
  now destruct (groq_chat env (GROQ_API_KEY env) groq_model (groq_messages env k)).
Qed.

Lemma insight_cases env :
  insight_disabled env
  \/ (GROQ_AVAILABLE env = true /\ truthy (GROQ_API_KEY env) = true).
Proof.
  unfold insight_disabled.
  destruct (GROQ_AVAILABLE env), (truthy (GROQ_API_KEY env)); auto.
Qed.

Lemma insight_flow env k : snd (insight env k) = Next tt.
Proof.
  destruct (insight_cases env) as [H|[Ha Hk]].
  - now rewrite insight_disabled_run.
  - now rewrite insight_enabled_run.
Qed.

Lemma report_run env df :
  report env df
  = match kpi_summary df with
    | Raise e =>
        ([st_subheader "📋 Data & Variance"; st_dataframe df], Uncaught e)
    | Ok k =>
        match px_bar df "Category" "Variance" "Variance per Category" "Variance" with
        | Raise e => (table_and_metrics env df k, Uncaught e)
        | Ok fig =>
            (report_head env df k fig ++ fst (insight env k) ++ [download_of df],
             Next tt)
        end
    end.
Proof.
  unfold report. destruct (kpi_summary df) as [k|e]; [|reflexivity].
  destruct (px_bar df "Category" "Variance" "Variance per Category" "Variance")
    as [fig|e]; [|reflexivity].
  pose proof (insight_flow env k) as Hf.
  cbv beta iota delta [bind lift ret emit].
  destruct (insight env k) as [evs fl]. simpl in Hf. subst fl. reflexivity.
Qed.

Lemma app_upload env df0 :
  app env (Some (ReadOk df0))
  = if has_required (strip_columns df0)
    then match analyse env (strip_columns df0) with
         | Ok df => (page_head ++ fst (report env df), snd (report env df))
         | Raise e => (page_head, Uncaught e)
         end
    else (page_head ++ [st_error schema_message], Stopped).
Proof.
  unfold app. cbv beta iota zeta delta [bind ret emit].
  destruct (has_required (strip_columns df0)); [|reflexivity].
  destruct (analyse env (strip_columns df0)) as [df|e]; [|reflexivity].
  simpl. destruct (report env df) as [evs fl]. reflexivity.
Qed.

Lemma app_no_file env :
  app env None
  = (page_head ++ [st_info "Silakan upload file Excel Anda."], Stopped).
Proof. reflexivity. Qed.

Lemma app_unreadable env e :
  app env (Some (ReadFailed e))
  = (page_head ++ [st_error (String.append "Gagal membaca Excel: " e)], Stopped).
Proof. reflexivity. Qed.

(** ** What a run that shows a table has done *)

Lemma kpi_summary_augmented env d sb sa :
  getitem d "Budget" = Ok sb -> getitem d "Actual" = Ok sa ->
  kpi_summary (augmented env d sb sa)
  = Ok (kpi_of (fillna (to_numeric env sb)) (fillna (to_numeric env sa))).
Proof.
  intros Hb Ha. unfold kpi_summary.
  rewrite (augmented_Budget env d sb sa Hb).
  rewrite (augmented_Actual env d sb sa Ha). cbn [rbind].
  rewrite !series_sum_normalized. reflexivity.
Qed.

Lemma insight_events_inv env k ev :
  In ev (fst (insight env k)) ->
  ev = insight_warning
  \/ ev = groq_create (GROQ_API_KEY env) groq_model (groq_messages env k)
  \/ (exists content, ev = st_write content)
  \/ (exists e, ev = st_error (String.append "Error AI: " e)).
Proof.
  destruct (insight_cases env) as [H|[Ha Hk]].
  - rewrite insight_disabled_run by exact H. simpl. intros [<-|[]]. now left.
  - rewrite insight_enabled_run by assumption. simpl.
    intros [<-|[<-|[]]]; [now right; left|].
    destruct (groq_chat env (GROQ_API_KEY env) groq_model (groq_messages env k))
      as [content|e]; eauto.
Qed.

Lemma report_displays env df df' :
  In (st_dataframe df') (fst (report env df)) -> df' = df.
Proof.
  rewrite report_run.
  destruct (kpi_summary df) as [k|e].
  - destruct (px_bar df "Category" "Variance" "Variance per Category" "Variance")
      as [fig|e]; simpl; intros H.
    + destruct H as [H|H]; [discriminate|].
      destruct H as [H|H]; [now inversion H|].
      do 7 (destruct H as [H|H]; [discriminate|]).
      apply in_app_iff in H. destruct H as [H|H].
      * apply insight_events_inv in H.
        destruct H as [H|[H|[[c H]|[c H]]]]; discriminate.
      * destruct H as [H|[]]. discriminate.
    + destruct H as [H|H]; [discriminate|].
      destruct H as [H|H]; [now inversion H|].
      do 5 (destruct H as [H|H]; [discriminate|]). destruct H.
  - simpl. intros [H|[H|[]]]; [discriminate | now inversion H].
Qed.

Lemma displays_inv env up df :
  displays (app env up) df ->
  exists df0,
    up = Some (ReadOk df0)
    /\ has_required (strip_columns df0) = true
    /\ analyse env (strip_columns df0) = Ok df.
Proof.
  unfold displays. destruct up as [[e|df0]|].
  - rewrite app_unreadable. intros H. split_In H.
  - rewrite app_upload. destruct (has_required (strip_columns df0)) eqn:Hreq.
    + destruct (analyse env (strip_columns df0)) as [df'|e] eqn:Han.
      * intros H. cbn [fst] in H. apply in_app_iff in H.
        destruct H as [H|H]; [split_In H|].
        apply report_displays in H. subst df'. now exists df0.
      * intros H. split_In H.
    + intros H. split_In H.
  - rewrite app_no_file. intros H. split_In H.
Qed.

(** The same, with the augmented frame in closed form. *)
Lemma displays_augmented env up df :
  displays (app env up) df ->
  exists df0 sb sa,
    up = Some (ReadOk df0)
    /\ has_required (strip_columns df0) = true
    /\ getitem (strip_columns df0) "Budget" = Ok sb
    /\ getitem (strip_columns df0) "Actual" = Ok sa
    /\ (forall s1 s2 ss, select (strip_columns df0) "Variance" <> s1 :: s2 :: ss)
    /\ df = augmented env (strip_columns df0) sb sa.
Proof.
  intros H. apply displays_inv in H. destruct H as (df0 & -> & Hreq & Han).
  apply analyse_Ok in Han. destruct Han as (sb & sa & Hb & Ha & Hv & ->).
  exists df0, sb, sa. auto 10.
Qed.

Lemma number_at_floats df col xs i :
  getitem df col = Ok (of_floats xs) -> number_at df col i = nth_error xs i.
Proof.
  intros H. unfold number_at. rewrite H. unfold of_floats.
  rewrite nth_error_map. now destruct (nth_error xs i).
Qed.

(** ** Per-record variance *)


(** C2. In every table the script shows, each column labelled
    [Variance %] holds, for a record of budget [b] and variance [v], the
    missing value when [b == 0] and [(v / b) * 100] otherwise. *)
Theorem variance_pct_rule env up df :
  displays (app env up) df ->
  has_column df "Variance %" = true
  /\ forall s, In ("Variance %", s) df ->
     forall i b v,
       number_at df "Budget" i = Some b ->
       number_at df "Variance" i = Some v ->
       (PrimFloat.eqb b 0%float = true -> nth_error s i = Some (Num nan))
       /\ (PrimFloat.eqb b 0%float = false ->
           nth_error s i
           = Some (Num (PrimFloat.mul (PrimFloat.div v b) 100%float))).
Proof.
  intros H.
  apply displays_augmented in H.
  destruct H as (df0 & sb & sa & _ & _ & Hb & Ha & Hv & ->).
  split; [now apply augmented_has_Variance_pct|].
  intros s Hs i b v.
  apply (augmented_Variance_pct env) in Hs. subst s.
  rewrite (number_at_floats _ _ _ _ (augmented_Budget env _ sb sa Hb)).
  rewrite (number_at_floats _ _ _ _ (augmented_Variance env _ sb sa Hv)).
  intros Hbi Hvi. unfold variance_of in Hvi.
  apply zip_with_nth_error_inv in Hvi.
  destruct Hvi as (a & b' & Hai & Hbi' & ->).
  assert (b' = b) by congruence. subst b'.
  unfold of_floats. rewrite nth_error_map.
  rewrite (variance_pct_nth_error _ _ i a b Hai Hbi). simpl.
  split; intros E; now rewrite E.
Qed.

(** ** Totals *)


(** ** Numeric normalization *)



(** ** Schema validation *)




(** ** The insight step *)

Lemma reaches_insight_inv env up :
  In insight_header (fst (app env up)) ->
  exists df0 df k fig,
    up = Some (ReadOk df0)
    /\ analyse env (strip_columns df0) = Ok df
    /\ kpi_summary df = Ok k
    /\ px_bar df "Category" "Variance" "Variance per Category" "Variance" = Ok fig
    /\ app env up
       = (page_head ++ report_head env df k fig
            ++ fst (insight env k) ++ [download_of df], Next tt).
Proof.
  unfold insight_header. destruct up as [[e|df0]|].
  - rewrite app_unreadable. intros H. split_In H.
  - rewrite app_upload. destruct (has_required (strip_columns df0)) eqn:Hreq.
    + destruct (analyse env (strip_columns df0)) as [df|e] eqn:Han.
      * rewrite report_run.
        destruct (kpi_summary df) as [k|e] eqn:Hk.
        -- destruct (px_bar df "Category" "Variance" "Variance per Category"
                       "Variance") as [fig|e] eqn:Hfig.
           ++ intros _. exists df0, df, k, fig. cbn [fst snd].
              rewrite <- ?app_assoc. auto 10.
           ++ intros H. split_In H.
        -- intros H. split_In H.
      * intros H. split_In H.
    + intros H. split_In H.
  - rewrite app_no_file. intros H. split_In H.
Qed.



(** ** Trimming and matching of labels *)

Module StrFacts.
Import Str.








End StrFacts.



Lemma report_errors env df body :
  In (st_error body) (fst (report env df)) ->
  exists e, body = String.append "Error AI: " e.
Proof.
  rewrite report_run.
  destruct (kpi_summary df) as [k|e].
  - destruct (px_bar df "Category" "Variance" "Variance per Category" "Variance")
      as [fig|e]; cbn [fst]; intros H.
    + unfold report_head in H. rewrite <- app_assoc in H.
      apply in_app_iff in H. destruct H as [H|H]; [split_In H|].
      apply in_app_iff in H. destruct H as [H|H].
      * simpl in H. destruct H as [H|[H|[]]]; discriminate.
      * apply in_app_iff in H.
        destruct H as [H|H]; [|simpl in H; destruct H as [H|[]]; discriminate].
        apply insight_events_inv in H.
        destruct H as [H|[H|[[c H]|[e H]]]]; try discriminate.
        inversion H. now exists e.
    + split_In H.
  - cbn [fst]. intros H. split_In H.
Qed.


(** ** Pass-through of the other columns and the export *)

Lemma to_excel_cell df i j l s c :
  nth_error df j = Some (l, s) -> nth_error s i = Some c -> i < nrows df ->
  sheet_cell (to_excel df) i j = Some (excel_value c).
Proof.
  intros Hj Hi Hn. unfold sheet_cell, to_excel. cbn [data_rows].
  rewrite nth_error_map_seq by exact Hn.
  unfold excel_row. rewrite nth_error_map, Hj. cbn [option_map snd].
  now rewrite (nth_error_nth _ _ _ Hi).
Qed.

Lemma exports_inv env up data :
  exports (app env up) data ->
  exists df0 df,
    up = Some (ReadOk df0)
    /\ displays (app env up) df
    /\ data = to_excel df.
Proof.
  intros (label & file_name & mime & H).
  assert (In insight_header (fst (app env up))) as Hr.
  { destruct up as [[e|df0]|].
    - rewrite app_unreadable in H. split_In H.
    - rewrite app_upload in *.
      destruct (has_required (strip_columns df0)); [|split_In H].
      destruct (analyse env (strip_columns df0)) as [df|e]; [|split_In H].
      cbn [fst] in *. apply in_or_app. right.
      apply in_app_iff in H. destruct H as [H|H]; [split_In H|].
      rewrite report_run in *.
      destruct (kpi_summary df) as [k|e]; [|split_In H].
      destruct (px_bar df "Category" "Variance" "Variance per Category"
                  "Variance") as [fig|e]; [|split_In H].
      cbn [fst]. unfold report_head. rewrite <- app_assoc.
      apply in_or_app. right. apply in_or_app. left. right. now left.
    - rewrite app_no_file in H. split_In H. }
  apply reaches_insight_inv in Hr.
  destruct Hr as (df0 & df & k & fig & -> & _ & _ & _ & Hrun).
  exists df0, df. split; [reflexivity|].
  unfold displays. rewrite Hrun in *. cbn [fst] in *. split.
  - apply in_or_app. right. apply in_or_app. left.
    unfold report_head, table_and_metrics. simpl. tauto.
  - apply in_app_iff in H. destruct H as [H|H]; [split_In H|].
    apply in_app_iff in H. destruct H as [H|H];
      [unfold report_head, table_and_metrics, insight_header in H; split_In H|].
    apply in_app_iff in H. destruct H as [H|H].
    + apply insight_events_inv in H.
      destruct H as [H|[H|[[c H]|[e H]]]]; discriminate.
    + destruct H as [H|[]]. unfold download_of in H. now inversion H.
Qed.


Lemma report_warnings env df body :
  In (st_warning body) (fst (report env df)) ->
  st_warning body = insight_warning.
Proof.
  rewrite report_run.
  destruct (kpi_summary df) as [k|e].
  - destruct (px_bar df "Category" "Variance" "Variance per Category" "Variance")
      as [fig|e]; cbn [fst]; intros H.
    + unfold report_head in H. rewrite <- app_assoc in H.
      apply in_app_iff in H. destruct H as [H|H]; [split_In H|].
      apply in_app_iff in H. destruct H as [H|H].
      * simpl in H. destruct H as [H|[H|[]]]; discriminate.
      * apply in_app_iff in H.
        destruct H as [H|H]; [|simpl in H; destruct H as [H|[]]; discriminate].
        apply insight_events_inv in H.
        destruct H as [H|[H|[[c H]|[e H]]]]; try discriminate. exact H.
    + split_In H.
  - cbn [fst]. intros H. split_In H.
Qed.

(** C10. In every table the script shows, a column of the upload whose
    trimmed label is [Variance] or [Variance %] holds, at its position,
    the derived values, whatever its cells were.  Nothing reports it: the
    only warning or error such a run can show is that of the insight
    step. *)
Theorem derived_labels_overwritten env df0 df :
  displays (app env (Some (ReadOk df0))) df ->
  (exists actual budget,
     getitem df "Actual" = Ok (of_floats actual)
     /\ getitem df "Budget" = Ok (of_floats budget)
     /\ forall j l s,
          nth_error df0 j = Some (l, s) ->
          (Str.strip l = "Variance" ->
           nth_error df j
           = Some ("Variance", of_floats (variance_of actual budget)))
          /\ (Str.strip l = "Variance %" ->
              nth_error df j
              = Some ("Variance %",
                      of_floats (variance_pct_of actual budget))))
  /\ (forall body,
        In (st_warning body) (fst (app env (Some (ReadOk df0)))) ->
        st_warning body = insight_warning)
  /\ (forall body,
        In (st_error body) (fst (app env (Some (ReadOk df0)))) ->
        exists e, body = String.append "Error AI: " e).
Proof.
  intros Hd. pose proof (displays_inv _ _ _ Hd) as (df0' & E & Hreq & Han).
  inversion E; subst df0'; clear E.
  split; [|split].
  - apply displays_augmented in Hd.
    destruct Hd as (df0' & sb & sa & E & _ & Hb & Ha & _ & ->).
    inversion E; subst df0'; clear E.
    exists (fillna (to_numeric env sa)), (fillna (to_numeric env sb)).
    split; [now apply augmented_Actual|]. split; [now apply augmented_Budget|].
    intros j l s Hj.
    pose proof (nth_error_strip_columns _ _ _ _ Hj) as Hj'.
    pose proof (augmented_nth_error env _ sb sa _ _ _ Hj') as Hj''.
    split; intros El; rewrite El in Hj''; exact Hj''.
  - intros body. rewrite app_upload, Hreq, Han. cbn [fst]. intros H.
    apply in_app_iff in H. destruct H as [H|H]; [split_In H|].
    now apply report_warnings in H.
  - intros body. rewrite app_upload, Hreq, Han. cbn [fst]. intros H.
    apply in_app_iff in H. destruct H as [H|H]; [split_In H|].
    now apply report_errors in H.
Qed.

(** ** Running the script on its own output

    The workbook writer and reader are outside the script.  What the script
    itself contributes to a round trip is that its output is a fixed point
    of its pipeline: if the reader hands back the exported table as it was
    shown, a second run trims, validates, normalizes and derives the very
    same table. *)

Lemma rstrip_idempotent s : Str.rstrip (Str.rstrip s) = Str.rstrip s.
Proof.
  induction s as [|c s IH]; [reflexivity|]. simpl.
  destruct (Str.rstrip s) as [|c' r] eqn:E.
  - destruct (Str.isspace c) eqn:Ec; simpl; [reflexivity | now rewrite Ec].
  - simpl. simpl in IH. now rewrite IH.
Qed.

Lemma lstrip_head s :
  Str.lstrip s = EmptyString
  \/ exists c t, Str.lstrip s = String c t /\ Str.isspace c = false.
Proof.
  induction s as [|c s IH]; simpl; [now left|].
  destruct (Str.isspace c) eqn:E; [exact IH|]. right. now exists c, s.
Qed.

Lemma rstrip_head c t :
  Str.isspace c = false -> exists t', Str.rstrip (String c t) = String c t'.
Proof.
  intros E. simpl. destruct (Str.rstrip t); [rewrite E|]; eauto.
Qed.

Lemma strip_idempotent s : Str.strip (Str.strip s) = Str.strip s.
Proof.
  unfold Str.strip.
  destruct (lstrip_head s) as [E|(c & t & E & Hc)]; rewrite E.
  - reflexivity.
  - destruct (rstrip_head c t Hc) as [t' E']. rewrite E'.
    simpl Str.lstrip. rewrite Hc, <- E'. apply rstrip_idempotent.
Qed.

Lemma setitem_same df c v :
  has_column df c = true -> (forall s, In (c, s) df -> s = v) ->
  setitem df c v = df.
Proof.
  intros Hc Hv. unfold setitem. rewrite Hc.
  rewrite <- (map_id df) at 2. apply map_ext_in. intros [l s] Hin. simpl.
  destruct (String.eqb_spec c l) as [->|_]; [|reflexivity].
  now rewrite (Hv s Hin).
Qed.

Lemma getitem_unique df c v s :
  getitem df c = Ok v -> In (c, s) df -> s = v.
Proof.
  intros H Hin. apply getitem_Ok_select in H.
  assert (In s (select df c)) as Hs.
  { unfold select. apply in_map_iff. exists (c, s). split; [reflexivity|].
    apply filter_In. split; [exact Hin | apply String.eqb_refl]. }
  rewrite H in Hs. now destruct Hs as [->|[]].
Qed.

Lemma getitem_has_column df c v : getitem df c = Ok v -> has_column df c = true.
Proof.
  intros H. apply has_column_In. unfold columns. apply in_map_iff.
  exists (c, v). split; [reflexivity | now apply getitem_In].
Qed.

(** X14. A table the script shows is a fixed point of its pipeline:
    trimming leaves its labels as they are, normalizing and deriving give
    the same table again, and a run on it shows it. *)
Lemma shown_table_is_fixed_point env up df :
  displays (app env up) df ->
  strip_columns df = df
  /\ analyse env df = Ok df
  /\ displays (app env (Some (ReadOk df))) df.
Proof.
  intros Hd. apply displays_augmented in Hd.
  destruct Hd as (df0 & sb & sa & _ & Hreq & Hb & Ha & Hv & ->).
  set (d := strip_columns df0) in *.
  set (df := augmented env d sb sa).
  pose proof (augmented_Budget env d sb sa Hb) as HB.
  pose proof (augmented_Actual env d sb sa Ha) as HA.
  pose proof (augmented_Variance env d sb sa Hv) as HV.
  fold df in HB, HA, HV.
  assert (strip_columns df = df) as Hstrip.
  { unfold strip_columns. rewrite <- (map_id df) at 2.
    apply map_ext_in. intros [l s] Hin. simpl. f_equal.
    assert (In l (columns df)) as Hl
      by (unfold columns; apply in_map_iff; now exists (l, s)).
    unfold df in Hl. rewrite (augmented_columns env d sb sa Hb Ha) in Hl.
    apply in_app_iff in Hl. destruct Hl as [Hl|Hl].
    - unfold d in Hl. rewrite columns_strip_columns in Hl.
      apply in_map_iff in Hl. destruct Hl as (l0 & <- & _).
      apply strip_idempotent.
    - apply in_app_iff in Hl.
      destruct Hl as [Hl|Hl];
        [destruct (has_column d "Variance")
        |destruct (has_column d "Variance %")];
        simpl in Hl; try contradiction;
        destruct Hl as [<-|[]]; reflexivity. }
  assert (forall xs,
            fillna (to_numeric env (of_floats (fillna xs))) = fillna xs) as Hnorm.
  { intros xs. unfold to_numeric, of_floats. rewrite map_map. simpl.
    rewrite map_id. apply fillna_idempotent. }
  assert (analyse env df = Ok df) as Han.
  { rewrite (analyse_total env df _ _ HB HA).
    - f_equal. unfold augmented. rewrite !Hnorm.
      rewrite (setitem_same df "Budget")
        by (eauto using getitem_has_column, getitem_unique).
      rewrite (setitem_same df "Actual")
        by (eauto using getitem_has_column, getitem_unique).
      rewrite (setitem_same df "Variance")
        by (eauto using getitem_has_column, getitem_unique).
      apply setitem_same; [apply augmented_has_Variance_pct|].
      intros s Hs. now apply (augmented_Variance_pct env d sb sa).
    - intros s1 s2 ss E. apply getitem_Ok_select in HV. congruence. }
  split; [exact Hstrip|]. split; [exact Han|].
  unfold displays. rewrite app_upload, Hstrip, Han.
  assert (has_required df = true) as ->.
  { unfold has_required in *. rewrite forallb_forall in *. intros c Hc.
    apply has_column_In. unfold df.
    rewrite (augmented_columns env d sb sa Hb Ha).
    apply in_or_app. left. apply has_column_In. now apply Hreq. }
  cbn [fst]. apply in_or_app. right. rewrite report_run.
  destruct (kpi_summary df);
    [destruct (px_bar df "Category" "Variance" "Variance per Category" "Variance")|];
    cbn [fst]; unfold report_head, table_and_metrics; simpl; tauto.
Qed.

(** X15. On the writer's side, an undefined percentage is an empty cell: in an
    exported sheet, under a header [Variance %], the cell of a record whose
    budget equals zero is empty. *)
Lemma undefined_pct_exported_empty env df0 data :
  rectangular df0 ->
  exports (app env (Some (ReadOk df0))) data ->
  exists df,
    displays (app env (Some (ReadOk df0))) df
    /\ forall i j b,
         nth_error (header_row data) j = Some "Variance %" ->
         number_at df "Budget" i = Some b ->
         PrimFloat.eqb b 0%float = true ->
         sheet_cell data i j = Some Empty.
Proof.
  intros R H. apply exports_inv in H.
  destruct H as (df0' & df & E & Hd & ->). inversion E; subst df0'; clear E.
  exists df. split; [exact Hd|].
  apply displays_augmented in Hd.
  destruct Hd as (df0' & sb & sa & E & _ & Hb & Ha & _ & ->).
  inversion E; subst df0'; clear E.
  set (d := strip_columns df0) in *.
  intros i j b Hj Hbi Hz.
  cbn [to_excel header_row] in Hj. unfold columns in Hj.
  rewrite nth_error_map in Hj.
  destruct (nth_error (augmented env d sb sa) j) as [[l s]|] eqn:Ej;
    [|discriminate]. simpl in Hj. inversion Hj; subst l; clear Hj.
  assert (s = of_floats (variance_pct_of (fillna (to_numeric env sa))
                           (fillna (to_numeric env sb)))) as ->.
  { apply (augmented_Variance_pct env d sb sa). eapply nth_error_In; eauto. }
  rewrite (number_at_floats _ _ _ _ (augmented_Budget env d sb sa Hb)) in Hbi.
  destruct (normalized_lengths env d sb sa Hb Ha
              (rectangular_strip_columns _ R)) as [Lb La].
  assert (i < nrows d) as Hi
    by (rewrite <- Lb; apply nth_error_Some; congruence).
  destruct (nth_error (fillna (to_numeric env sa)) i) as [a|] eqn:Eai.
  2:{ apply nth_error_None in Eai. lia. }
  replace (Some Empty) with (Some (excel_value (Num nan))) by reflexivity.
  apply (to_excel_cell _ i j "Variance %" _ (Num nan) Ej).
  - unfold of_floats. rewrite nth_error_map.
    rewrite (variance_pct_nth_error _ _ i a b Eai Hbi), Hz. reflexivity.
  - destruct (augmented_rectangular env d sb sa Hb Ha
                (rectangular_strip_columns _ R)) as [_ ->]. exact Hi.
Qed.

(** ** The claims at sample inputs *)


Lemma variance_pct_rule_witness :
  displays (app Sample.failing (Some (ReadOk Sample.messy))) Sample.messy_shown
  /\ In ("Variance %", [Num 20; Num nan; Num nan]%float) Sample.messy_shown
  /\ number_at Sample.messy_shown "Budget" 1 = Some 0%float
  /\ number_at Sample.messy_shown "Variance" 1 = Some 50%float
  /\ PrimFloat.eqb 0%float 0%float = true
  /\ nth_error [Num 20; Num nan; Num nan]%float 1 = Some (Num nan)
  /\ number_at Sample.messy_shown "Budget" 0 = Some 1000%float
  /\ number_at Sample.messy_shown "Variance" 0 = Some 200%float
  /\ PrimFloat.eqb 1000%float 0%float = false
  /\ nth_error [Num 20; Num nan; Num nan]%float 0
     = Some (Num (PrimFloat.mul (PrimFloat.div 200%float 1000%float) 100%float)).
Proof.
  assert (displays (app Sample.failing (Some (ReadOk Sample.messy)))
            Sample.messy_shown) as D by (vm_compute; nth_event 4).
  assert (In ("Variance %", [Num 20; Num nan; Num nan]%float)
            Sample.messy_shown) as I by (vm_compute; nth_event 5).
  destruct (variance_pct_rule Sample.failing (Some (ReadOk Sample.messy))
              Sample.messy_shown D) as [_ K].
  split; [exact D|]. split; [exact I|].
  split; [reflexivity|]. split; [reflexivity|]. split; [reflexivity|].
  split.
  { apply (K _ I 1 0%float 50%float); reflexivity. }
  split; [reflexivity|]. split; [reflexivity|]. split; [reflexivity|].
  apply (K _ I 0 1000%float 200%float); reflexivity.
Defined.








Lemma derived_labels_overwritten_witness :
  displays (app Sample.offline (Some (ReadOk Sample.own_variance)))
    Sample.own_variance_shown
  /\ nth_error Sample.own_variance 3 = Some ("Variance", [Num 999%float])
  /\ Str.strip "Variance" = "Variance"
  /\ exists actual budget,
       getitem Sample.own_variance_shown "Actual" = Ok (of_floats actual)
       /\ getitem Sample.own_variance_shown "Budget" = Ok (of_floats budget)
       /\ nth_error Sample.own_variance_shown 3
          = Some ("Variance", of_floats (variance_of actual budget)).
Proof.
  assert (displays (app Sample.offline (Some (ReadOk Sample.own_variance)))
            Sample.own_variance_shown) as D by (vm_compute; nth_event 4).
  split; [exact D|]. split; [reflexivity|]. split; [reflexivity|].
  destruct (derived_labels_overwritten Sample.offline Sample.own_variance
              Sample.own_variance_shown D)
    as ((actual & budget & Ha & Hb & K) & _).
  exists actual, budget. split; [exact Ha|]. split; [exact Hb|].
  exact (proj1 (K 3 "Variance" [Num 999%float] eq_refl) eq_refl).
Defined.

(** ** A run that dies during normalization

    Trimming can make two labels equal.  A table that has both [Budget] and
    [" Budget"] passes the schema check; the label then selects two columns
    and the numeric coercion raises, after the page header and before any
    table is shown. *)
Example duplicated_label_raises :
  has_required (strip_columns Sample.twice_budget) = true
  /\ app Sample.offline (Some (ReadOk Sample.twice_budget))
     = (page_head, Uncaught (NotASeries "Budget")).
Proof. split; reflexivity. Qed.

(** The example of the specification: rows (Rent, 1000, 1200) and
    (Supplies, 500, 400). *)
Example rent_supplies_analysis :
  analyse Sample.offline (strip_columns Sample.rent_supplies)
  = Ok Sample.rent_supplies_shown
  /\ kpi_summary Sample.rent_supplies_shown
     = Ok {| total_budget := 1500; total_actual := 1600;
             total_variance := 100;
             total_var_pct := 0x1.aaaaaaaaaaaabp+2 |}.
Proof. split; reflexivity. Qed.

(** * Further properties of the script *)

(** ** How a run ends *)

(** The three shapes of a run. *)
Lemma run_shape env up :
  (snd (app env up) = Stopped
   /\ exists msg, fst (app env up) = page_head ++ [msg]
        /\ (msg = st_info "Silakan upload file Excel Anda."
            \/ exists body, msg = st_error body))
  \/ (exists e, snd (app env up) = Uncaught e
        /\ forall ev, In ev (fst (app env up)) ->
             forall label data file_name mime key model messages,
               ev <> st_download_button label data file_name mime
               /\ ev <> groq_create key model messages
               /\ ev <> insight_header)
  \/ (snd (app env up) = Next tt
      /\ exists df k fig,
           fst (app env up)
           = page_head ++ report_head env df k fig
               ++ fst (insight env k) ++ [download_of df]).
Proof.
  destruct up as [[e|df0]|].
  - left. rewrite app_unreadable. split; [reflexivity|].
    eexists. split; [reflexivity|]. right. eexists. reflexivity.
  - rewrite app_upload. destruct (has_required (strip_columns df0)).
    + destruct (analyse env (strip_columns df0)) as [df|e].
      * rewrite report_run. destruct (kpi_summary df) as [k|e].
        -- destruct (px_bar df "Category" "Variance" "Variance per Category"
                       "Variance") as [fig|e].
           ++ right. right. split; [reflexivity|]. now exists df, k, fig.
           ++ right. left. exists e. split; [reflexivity|].
              cbn [fst]. unfold insight_header. intros ev H **.
              split_In H; subst ev; repeat split; discriminate.
        -- right. left. exists e. split; [reflexivity|].
           cbn [fst]. unfold insight_header. intros ev H **.
           split_In H; subst ev; repeat split; discriminate.
      * right. left. exists e. split; [reflexivity|].
        cbn [fst]. unfold insight_header. intros ev H **.
        split_In H; subst ev; repeat split; discriminate.
    + left. split; [reflexivity|].
      eexists. split; [reflexivity|]. right. eexists. reflexivity.
  - left. rewrite app_no_file. split; [reflexivity|].
    eexists. split; [reflexivity|]. now left.
Qed.










(** ** The download *)

(** X4. The download is offered exactly in the runs that end normally; it
    is then the last widget of the page and carries the sheet written from
    the table the run shows. *)
Theorem download_offered_exactly_when_finished env up :
  ((exists data, exports (app env up) data) <-> snd (app env up) = Next tt)
  /\ (snd (app env up) = Next tt ->
      exists df evs,
        fst (app env up) = evs ++ [download_of df]
        /\ displays (app env up) df
        /\ forall data, exports (app env up) data -> data = to_excel df).
Proof.
  assert (snd (app env up) = Next tt ->
          exists df k fig,
            fst (app env up)
            = page_head ++ report_head env df k fig
                ++ fst (insight env k) ++ [download_of df]) as Shape.
  { intros H.
    destruct (run_shape env up) as [[E _]|[(e & E & _)|[_ S]]];
      [congruence | congruence | exact S]. }
  split; [split|].
  - intros (data & label & file_name & mime & H).
    destruct (run_shape env up) as [(_ & msg & E & Hm)|[(e & _ & N)|[E _]]];
      [| |exact E]; exfalso.
    + rewrite E in H. apply in_app_iff in H.
      destruct H as [H|[H|[]]]; [split_In H|].
      destruct Hm as [->|[body ->]]; discriminate.
    + destruct (N _ H label data file_name mime None ""%string []) as [N1 _].
      now apply N1.
  - intros H. destruct (Shape H) as (df & k & fig & E).
    exists (to_excel df), "⬇️ Download Hasil Analisis (Excel)",
      "umkm_analysis.xlsx", xlsx_mime.
    rewrite E. rewrite !app_assoc. apply in_or_app. right. now left.
  - intros H. destruct (Shape H) as (df & k & fig & E).
    exists df, (page_head ++ report_head env df k fig ++ fst (insight env k)).
    split; [now rewrite E, <- !app_assoc|].
    assert (displays (app env up) df) as D.
    { unfold displays. rewrite E. apply in_or_app. right. apply in_or_app. left.
      unfold report_head, table_and_metrics. simpl. tauto. }
    split; [exact D|].
    intros data X. apply exports_inv in X.
    destruct X as (df0 & df' & -> & D' & ->).
    apply displays_inv in D. apply displays_inv in D'.
    destruct D as (d1 & E1 & _ & A1). destruct D' as (d2 & E2 & _ & A2).
    inversion E1; inversion E2; subst. congruence.
Qed.

(** ** The insight request *)

(** X5. The completion service is contacted exactly in the runs that
    reach the insight section with the client library loaded and a
    non-empty credential; an empty credential counts as none.  What is
    sent is then the credential, the model [llama-3.1-8b-instant] and two
    messages, the fixed system role and the prompt built from the totals
    of the shown table. *)
Theorem request_sent_exactly_when_enabled env up :
  ((exists key model messages,
      In (groq_create key model messages) (fst (app env up)))
   <-> (In insight_header (fst (app env up))
        /\ GROQ_AVAILABLE env = true
        /\ exists c rest, GROQ_API_KEY env = Some (String c rest)))
  /\ (forall key model messages,
        In (groq_create key model messages) (fst (app env up)) ->
        key = GROQ_API_KEY env
        /\ model = "llama-3.1-8b-instant"
        /\ exists df k,
             displays (app env up) df
             /\ kpi_summary df = Ok k
             /\ messages
                = [ ("system", "Anda adalah konsultan usaha UMKM profesional.");
                    ("user", summary_text env k) ]).
Proof.
  assert (forall key model messages,
            In (groq_create key model messages) (fst (app env up)) ->
            exists df k fig,
              kpi_summary df = Ok k
              /\ fst (app env up)
                 = page_head ++ report_head env df k fig
                     ++ fst (insight env k) ++ [download_of df]
              /\ In (groq_create key model messages) (fst (insight env k)))
    as Inv.
  { intros key model messages H.
    assert (In insight_header (fst (app env up))) as R.
    { destruct (run_shape env up) as [(_ & msg & E & Hm)|[(e & _ & N)|[_ S]]].
      - exfalso. rewrite E in H. apply in_app_iff in H.
        destruct H as [H|[H|[]]]; [split_In H|].
        destruct Hm as [->|[body ->]]; discriminate.
      - exfalso.
        destruct (N _ H ""%string (to_excel []) ""%string ""%string
                    key model messages) as (_ & N2 & _).
        now apply N2.
      - destruct S as (df & k & fig & E). rewrite E.
        apply in_or_app. right. apply in_or_app. left.
        unfold report_head. apply in_or_app. right. right. now left. }
    apply reaches_insight_inv in R.
    destruct R as (df0 & df & k & fig & _ & _ & Hk & _ & E).
    exists df, k, fig. split; [exact Hk|].
    split; [now rewrite E|].
    rewrite E in H. cbn [fst] in H.
    apply in_app_iff in H. destruct H as [H|H]; [split_In H|].
    apply in_app_iff in H. destruct H as [H|H];
      [unfold report_head, table_and_metrics, insight_header in H; split_In H|].
    apply in_app_iff in H. destruct H as [H|[H|[]]]; [exact H | discriminate]. }
  split; [split|].
  - intros (key & model & messages & H).
    destruct (Inv _ _ _ H) as (df & k & fig & _ & E & Hi).
    split.
    { rewrite E. apply in_or_app. right. apply in_or_app. left.
      unfold report_head. apply in_or_app. right. right. now left. }
    destruct (insight_cases env) as [Hd|[Ha Hk]].
    + rewrite (insight_disabled_run env k Hd) in Hi.
      destruct Hi as [Hi|[]]. discriminate.
    + split; [exact Ha|]. unfold truthy in Hk.
      destruct (GROQ_API_KEY env) as [[|c rest]|]; try discriminate.
      now exists c, rest.
  - intros (R & Ha & c & rest & Hk).
    apply reaches_insight_inv in R.
    destruct R as (df0 & df & k & fig & _ & _ & _ & _ & E).
    exists (GROQ_API_KEY env), groq_model, (groq_messages env k).
    rewrite E. cbn [fst]. apply in_or_app. right. apply in_or_app. right.
    apply in_or_app. left.
    rewrite insight_enabled_run by (try assumption; now rewrite Hk).
    now left.
  - intros key model messages H.
    destruct (Inv _ _ _ H) as (df & k & fig & Hk & E & Hi).
    apply insight_events_inv in Hi.
    destruct Hi as [Hi|[Hi|[[c Hi]|[c Hi]]]]; try discriminate.
    inversion Hi; subst. split; [reflexivity|]. split; [reflexivity|].
    exists df, k. split; [|split; [exact Hk | reflexivity]].
    unfold displays. rewrite E. apply in_or_app. right. apply in_or_app. left.
    unfold report_head, table_and_metrics. simpl. tauto.
Qed.

(** X6. When the request is made and the service answers, the page shows
    the answer as it came, between the insight header and the download,
    and no warning or error. *)
Theorem insight_answer_shown_verbatim env up :
  In insight_header (fst (app env up)) ->
  GROQ_AVAILABLE env = true -> truthy (GROQ_API_KEY env) = true ->
  exists df k fig,
    forall content,
      groq_chat env (GROQ_API_KEY env) groq_model (groq_messages env k)
      = inl content ->
      app env up
      = (page_head ++ report_head env df k fig
           ++ [ groq_create (GROQ_API_KEY env) groq_model (groq_messages env k);
                st_write content;
                download_of df ], Next tt).
Proof.
  intros H Ha Hk. apply reaches_insight_inv in H.
  destruct H as (df0 & df & k & fig & _ & _ & _ & _ & ->).
  exists df, k, fig. intros content Hc.
  rewrite insight_enabled_run by assumption. now rewrite Hc.
Qed.



(** ** The chart *)

Lemma chart_inv env up fig :
  In (st_plotly_chart fig) (fst (app env up)) ->
  exists df0 df,
    up = Some (ReadOk df0)
    /\ analyse env (strip_columns df0) = Ok df
    /\ px_bar df "Category" "Variance" "Variance per Category" "Variance" = Ok fig.
Proof.
  intros H.
  assert (In insight_header (fst (app env up))) as R.
  { destruct up as [[e|df0]|].
    - rewrite app_unreadable in H. split_In H.
    - rewrite app_upload in *.
      destruct (has_required (strip_columns df0)); [|split_In H].
      destruct (analyse env (strip_columns df0)) as [df|e]; [|split_In H].
      cbn [fst] in *. apply in_or_app. right.
      apply in_app_iff in H. destruct H as [H|H]; [split_In H|].
      rewrite report_run in *.
      destruct (kpi_summary df) as [k|e]; [|split_In H].
      destruct (px_bar df "Category" "Variance" "Variance per Category"
                  "Variance") as [fig'|e]; [|split_In H].
      cbn [fst]. unfold report_head. rewrite <- app_assoc.
      apply in_or_app. right. apply in_or_app. left. right. now left.
    - rewrite app_no_file in H. split_In H. }
  apply reaches_insight_inv in R.
  destruct R as (df0 & df & k & fig' & -> & Han & _ & Hfig & E).
  exists df0, df. split; [reflexivity|]. split; [exact Han|].
  rewrite E in H. cbn [fst] in H.
  apply in_app_iff in H. destruct H as [H|H]; [split_In H|].
  apply in_app_iff in H. destruct H as [H|H].
  - unfold report_head, table_and_metrics, insight_header in H.
    apply in_app_iff in H. destruct H as [H|H]; [split_In H|].
    destruct H as [H|[H|[]]]; [|discriminate]. inversion H. now subst.
  - apply in_app_iff in H. destruct H as [H|[H|[]]]; [|discriminate].
    apply insight_events_inv in H.
    destruct H as [H|[H|[[c H]|[c H]]]]; discriminate.
Qed.

(** X8. The bar chart plots the categories of the upload, cell for cell
    as they were read, against the derived variance, which also gives the
    colour; with a rectangular upload there is one bar per record. *)
Theorem chart_axes env df0 fig :
  In (st_plotly_chart fig) (fst (app env (Some (ReadOk df0)))) ->
  exists df,
    displays (app env (Some (ReadOk df0))) df
    /\ getitem (strip_columns df0) "Category" = Ok (fig_x fig)
    /\ getitem df "Variance" = Ok (fig_y fig)
    /\ fig_color fig = fig_y fig
    /\ fig_title fig = "Variance per Category"
    /\ fig_text_auto fig = true
    /\ (rectangular df0 ->
        List.length (fig_x fig) = nrows df0
        /\ List.length (fig_y fig) = nrows df0).
Proof.
  intros H. pose proof (chart_inv _ _ _ H) as (df0' & df & E & Han & Hfig).
  inversion E; subst df0'; clear E.
  exists df.
  assert (displays (app env (Some (ReadOk df0))) df) as D.
  { unfold displays. rewrite app_upload.
    destruct (has_required (strip_columns df0)) eqn:Hreq.
    - rewrite Han. cbn [fst]. apply in_or_app. right. rewrite report_run.
      destruct (kpi_summary df);
        [destruct (px_bar df "Category" "Variance" "Variance per Category"
                     "Variance")|];
        cbn [fst]; unfold report_head, table_and_metrics; simpl; tauto.
    - exfalso. rewrite app_upload, Hreq in H. split_In H. }
  split; [exact D|].
  apply analyse_Ok in Han. destruct Han as (sb & sa & Hb & Ha & Hv & ->).
  unfold px_bar in Hfig.
  destruct (getitem (augmented env (strip_columns df0) sb sa) "Category")
    as [xs|] eqn:Ex; [|discriminate]. cbn [rbind] in Hfig.
  rewrite (augmented_Variance env _ sb sa Hv) in Hfig. cbn [rbind] in Hfig.
  inversion Hfig; subst fig; clear Hfig. cbn [fig_x fig_y fig_color fig_title
                                              fig_text_auto].
  assert (getitem (strip_columns df0) "Category" = Ok xs) as Ec.
  { rewrite <- Ex. unfold augmented.
    now rewrite !getitem_setitem_ne by discriminate. }
  split; [exact Ec|].
  split; [now apply augmented_Variance|].
  split; [reflexivity|]. split; [reflexivity|]. split; [reflexivity|].
  intros R. pose proof (rectangular_strip_columns _ R) as R'.
  destruct (normalized_lengths env _ sb sa Hb Ha R') as [Lb La].
  rewrite nrows_strip_columns in Lb, La. split.
  - rewrite (R' "Category" xs (getitem_In _ _ _ Ec)).
    apply nrows_strip_columns.
  - rewrite of_floats_length. unfold variance_of.
    rewrite zip_with_length; congruence.
Qed.

(** ** Shape of the table and of the sheet *)

Lemma augmented_length env d sb sa :
  getitem d "Budget" = Ok sb -> getitem d "Actual" = Ok sa ->
  List.length d <= List.length (augmented env d sb sa) <= List.length d + 2.
Proof.
  intros Hb Ha.
  assert (List.length (augmented env d sb sa)
          = List.length (columns (augmented env d sb sa))) as ->
    by (unfold columns; now rewrite length_map).
  rewrite (augmented_columns env d sb sa Hb Ha). rewrite !length_app.
  unfold columns. rewrite length_map.
  destruct (has_column d "Variance"), (has_column d "Variance %"); simpl; lia.
Qed.


(** X10. The exported sheet of a rectangular upload has one data row per
    record, every data row is as wide as the header row, and the header
    row has the columns of the upload and at most two more. *)
Theorem sheet_shape env df0 data :
  rectangular df0 ->
  exports (app env (Some (ReadOk df0))) data ->
  List.length (data_rows data) = nrows df0
  /\ (forall r, In r (data_rows data) ->
        List.length r = List.length (header_row data))
  /\ List.length df0 <= List.length (header_row data) <= List.length df0 + 2.
Proof.
  intros R H. apply exports_inv in H.
  destruct H as (df0' & df & E & Hd & ->). inversion E; subst df0'; clear E.
  apply displays_augmented in Hd.
  destruct Hd as (df0' & sb & sa & E & _ & Hb & Ha & _ & ->).
  inversion E; subst df0'; clear E.
  pose proof (rectangular_strip_columns _ R) as R'.
  destruct (augmented_rectangular env _ sb sa Hb Ha R') as [_ Nd].
  rewrite nrows_strip_columns in Nd.
  cbn [to_excel data_rows header_row]. split; [|split].
  - now rewrite length_map, length_seq.
  - intros r Hr. apply in_map_iff in Hr. destruct Hr as (i & <- & _).
    unfold excel_row, columns. now rewrite !length_map.
  - pose proof (augmented_length env _ sb sa Hb Ha) as L.
    assert (List.length (strip_columns df0) = List.length df0) as E
      by (unfold strip_columns; apply length_map).
    rewrite E in L. unfold columns. now rewrite length_map.
Qed.


(** ** Trimming of the labels *)

Lemma lstrip_strip s : Str.lstrip (Str.strip s) = Str.strip s.
Proof.
  unfold Str.strip.
  destruct (lstrip_head s) as [E|(c & t & E & Hc)]; rewrite E.
  - reflexivity.
  - destruct (rstrip_head c t Hc) as [t' E']. rewrite E'.
    simpl. now rewrite Hc.
Qed.

(** X12. Line 42 changes labels only, and settles them: the cells and the
    order of the columns are untouched, no label of the trimmed table
    starts or ends with whitespace, and trimming a second time changes
    nothing. *)
Theorem trimming_settles_labels df :
  map snd (strip_columns df) = map snd df
  /\ strip_columns (strip_columns df) = strip_columns df
  /\ forall l, In l (columns (strip_columns df)) ->
       Str.lstrip l = l /\ Str.rstrip l = l.
Proof.
  split; [|split].
  - unfold strip_columns. rewrite map_map. now apply map_ext.
  - unfold strip_columns. rewrite map_map. apply map_ext.
    intros [l s]. simpl. now rewrite strip_idempotent.
  - intros l Hl. rewrite columns_strip_columns in Hl.
    apply in_map_iff in Hl. destruct Hl as (l0 & <- & _). split.
    + apply lstrip_strip.
    + unfold Str.strip. apply rstrip_idempotent.
Qed.

(** ** The data and the insight configuration *)

Lemma analyse_shows env df0 df :
  has_required (strip_columns df0) = true ->
  analyse env (strip_columns df0) = Ok df ->
  displays (app env (Some (ReadOk df0))) df.
Proof.
  intros Hreq Han. unfold displays. rewrite app_upload, Hreq, Han.
  cbn [fst]. apply in_or_app. right. rewrite report_run.
  destruct (kpi_summary df);
    [destruct (px_bar df "Category" "Variance" "Variance per Category"
                 "Variance")|];
    cbn [fst]; unfold report_head, table_and_metrics; simpl; tauto.
Qed.

Lemma analyse_reads_text_only env env' d :
  (forall t, text_to_float env t = text_to_float env' t) ->
  analyse env d = analyse env' d.
Proof.
  intros H.
  assert (forall s, to_numeric env s = to_numeric env' s) as Hn.
  { intros s. unfold to_numeric. apply map_ext. intros [x|t]; simpl; auto. }
  unfold analyse, convert_all, convert_numeric. cbn [fold_left rbind].
  destruct (getitem d "Budget") as [sb|]; [|reflexivity]. cbn [rbind].
  rewrite (Hn sb).
  destruct (getitem (setitem d "Budget" (of_floats (fillna (to_numeric env' sb))))
              "Actual") as [sa|]; [|reflexivity].
  cbn [rbind]. now rewrite (Hn sa).
Qed.

Lemma exports_iff env up data :
  exports (app env up) data
  <-> exists df0 df k fig,
        up = Some (ReadOk df0)
        /\ has_required (strip_columns df0) = true
        /\ analyse env (strip_columns df0) = Ok df
        /\ kpi_summary df = Ok k
        /\ px_bar df "Category" "Variance" "Variance per Category" "Variance"
           = Ok fig
        /\ data = to_excel df.
Proof.
  split.
  - intros X. pose proof (exports_inv _ _ _ X) as (df0 & df & -> & D & ->).
    apply displays_inv in D. destruct D as (df0' & E & Hreq & Han).
    inversion E; subst df0'; clear E.
    destruct X as (label & file_name & mime & X).
    rewrite app_upload, Hreq, Han in X. cbn [fst] in X.
    apply in_app_iff in X. destruct X as [X|X]; [split_In X|].
    rewrite report_run in X.
    destruct (kpi_summary df) as [k|e] eqn:Hk; [|split_In X].
    destruct (px_bar df "Category" "Variance" "Variance per Category"
                "Variance") as [fig|e] eqn:Hfig; [|split_In X].
    exists df0, df, k, fig. auto 10.
  - intros (df0 & df & k & fig & -> & Hreq & Han & Hk & Hfig & ->).
    exists "⬇️ Download Hasil Analisis (Excel)", "umkm_analysis.xlsx", xlsx_mime.
    rewrite app_upload, Hreq, Han. cbn [fst]. rewrite report_run, Hk, Hfig.
    cbn [fst]. rewrite !app_assoc. apply in_or_app. right. now left.
Qed.

(** X13. The table and the download depend on the environment only
    through the reading of text cells: changing the client library flag,
    the credential, the service or the number formatting changes neither
    the table shown nor the sheet exported. *)
Theorem data_independent_of_insight_config env env' up :
  (forall t, text_to_float env t = text_to_float env' t) ->
  (forall df, displays (app env up) df <-> displays (app env' up) df)
  /\ (forall data, exports (app env up) data <-> exports (app env' up) data).
Proof.
  intros H.
  assert (forall e1 e2 : environment,
            (forall t, text_to_float e1 t = text_to_float e2 t) ->
            (forall df, displays (app e1 up) df -> displays (app e2 up) df)
            /\ (forall data, exports (app e1 up) data -> exports (app e2 up) data))
    as One.
  { intros e1 e2 H12. split.
    - intros df D. apply displays_inv in D.
      destruct D as (df0 & -> & Hreq & Han).
      rewrite (analyse_reads_text_only e1 e2 _ H12) in Han.
      now apply analyse_shows.
    - intros data X. apply exports_iff in X. apply exports_iff.
      destruct X as (df0 & df & k & fig & -> & Hreq & Han & Hk & Hfig & ->).
      rewrite (analyse_reads_text_only e1 e2 _ H12) in Han.
      exists df0, df, k, fig. auto 10. }
  split; intros x; split; apply One; auto.
Qed.

(** X16. The derived figures are functions of the [Budget] and [Actual]
    columns alone: two uploads that agree on these two columns show the
    same [Variance] and [Variance %] columns and the same totals, whatever
    their categories and other columns are. *)
Theorem figures_depend_on_budget_and_actual_only env df0 df0' df df' sb sa :
  displays (app env (Some (ReadOk df0))) df ->
  displays (app env (Some (ReadOk df0'))) df' ->
  getitem (strip_columns df0) "Budget" = Ok sb ->
  getitem (strip_columns df0') "Budget" = Ok sb ->
  getitem (strip_columns df0) "Actual" = Ok sa ->
  getitem (strip_columns df0') "Actual" = Ok sa ->
  getitem df "Variance" = getitem df' "Variance"
  /\ (forall s s', In ("Variance %", s) df -> In ("Variance %", s') df' -> s = s')
  /\ kpi_summary df = kpi_summary df'.
Proof.
  intros D D' Hb Hb' Ha Ha'.
  apply displays_augmented in D. apply displays_augmented in D'.
  destruct D as (d0 & b1 & a1 & E & _ & Hb1 & Ha1 & Hv1 & ->).
  destruct D' as (d0' & b2 & a2 & E' & _ & Hb2 & Ha2 & Hv2 & ->).
  inversion E; inversion E'; subst d0 d0'; clear E E'.
  assert (b1 = sb) by congruence. assert (b2 = sb) by congruence.
  assert (a1 = sa) by congruence. assert (a2 = sa) by congruence. subst.
  split; [|split].
  - now rewrite !(augmented_Variance env _ sb sa) by assumption.
  - intros s s' Hs Hs'.
    apply (augmented_Variance_pct env) in Hs.
    apply (augmented_Variance_pct env) in Hs'. congruence.
  - now rewrite !(kpi_summary_augmented env _ sb sa) by assumption.
Qed.

(** ** The further properties at sample inputs *)




Lemma download_offered_exactly_when_finished_witness :
  snd (app Sample.offline (Some (ReadOk Sample.rent_supplies))) = Next tt
  /\ (exists data,
        exports (app Sample.offline (Some (ReadOk Sample.rent_supplies))) data)
  /\ exists df evs,
       fst (app Sample.offline (Some (ReadOk Sample.rent_supplies)))
       = evs ++ [download_of df]
       /\ displays (app Sample.offline (Some (ReadOk Sample.rent_supplies))) df.
Proof.
  assert (snd (app Sample.offline (Some (ReadOk Sample.rent_supplies))) = Next tt)
    as F by reflexivity.
  split; [exact F|].
  destruct (download_offered_exactly_when_finished Sample.offline
              (Some (ReadOk Sample.rent_supplies))) as [I L].
  split; [exact (proj2 I F)|].
  destruct (L F) as (df & evs & E & D & _). now exists df, evs.
Defined.

Lemma request_sent_exactly_when_enabled_witness :
  In insight_header (fst (app Sample.failing (Some (ReadOk Sample.messy))))
  /\ GROQ_AVAILABLE Sample.failing = true
  /\ (exists c rest, GROQ_API_KEY Sample.failing = Some (String c rest))
  /\ (exists key model messages,
        In (groq_create key model messages)
          (fst (app Sample.failing (Some (ReadOk Sample.messy)))))
  /\ ~ (exists key model messages,
          In (groq_create key model messages)
            (fst (app More.empty_key (Some (ReadOk Sample.messy))))).
Proof.
  assert (In insight_header
            (fst (app Sample.failing (Some (ReadOk Sample.messy)))))
    as R by (vm_compute; nth_event 11).
  assert (exists c rest, GROQ_API_KEY Sample.failing = Some (String c rest))
    as K by (eexists; eexists; reflexivity).
  split; [exact R|]. split; [reflexivity|]. split; [exact K|]. split.
  - exact (proj2 (proj1 (request_sent_exactly_when_enabled Sample.failing
                           (Some (ReadOk Sample.messy))))
             (conj R (conj eq_refl K))).
  - intros X.
    destruct (proj1 (proj1 (request_sent_exactly_when_enabled More.empty_key
                              (Some (ReadOk Sample.messy)))) X)
      as (_ & _ & c & rest & E).
    discriminate E.
Defined.

Lemma insight_answer_shown_verbatim_witness :
  In insight_header (fst (app Sample.online (Some (ReadOk Sample.rent_supplies))))
  /\ GROQ_AVAILABLE Sample.online = true
  /\ truthy (GROQ_API_KEY Sample.online) = true
  /\ exists df k fig,
       app Sample.online (Some (ReadOk Sample.rent_supplies))
       = (page_head ++ report_head Sample.online df k fig
            ++ [ groq_create (Some "gsk_test") groq_model
                   (groq_messages Sample.online k);
                 st_write "Kurangi biaya sewa.";
                 download_of df ], Next tt).
Proof.
  assert (In insight_header
            (fst (app Sample.online (Some (ReadOk Sample.rent_supplies)))))
    as R by (vm_compute; nth_event 11).
  split; [exact R|]. split; [reflexivity|]. split; [reflexivity|].
  destruct (insight_answer_shown_verbatim Sample.online _ R eq_refl eq_refl)
    as (df & k & fig & H).
  exists df, k, fig. exact (H "Kurangi biaya sewa." eq_refl).
Defined.


Lemma chart_axes_witness :
  In (st_plotly_chart More.rent_supplies_fig)
    (fst (app Sample.offline (Some (ReadOk Sample.rent_supplies))))
  /\ rectangular Sample.rent_supplies
  /\ getitem (strip_columns Sample.rent_supplies) "Category"
     = Ok [Text "Rent"; Text "Supplies"]
  /\ List.length (fig_y More.rent_supplies_fig) = nrows Sample.rent_supplies.
Proof.
  assert (In (st_plotly_chart More.rent_supplies_fig)
            (fst (app Sample.offline (Some (ReadOk Sample.rent_supplies)))))
    as C by (vm_compute; nth_event 10).
  assert (rectangular Sample.rent_supplies) as R.
  { intros l s H. vm_compute in H.
    repeat (destruct H as [H|H]; [inversion H; reflexivity|]). destruct H. }
  split; [exact C|]. split; [exact R|].
  destruct (chart_axes Sample.offline Sample.rent_supplies
              More.rent_supplies_fig C)
    as (df & _ & Hx & _ & _ & _ & _ & L).
  split; [exact Hx|]. exact (proj2 (L R)).
Defined.


Lemma sheet_shape_witness :
  rectangular Sample.messy
  /\ exports (app Sample.failing (Some (ReadOk Sample.messy)))
       (to_excel Sample.messy_shown)
  /\ List.length (data_rows (to_excel Sample.messy_shown)) = nrows Sample.messy
  /\ List.length Sample.messy
     <= List.length (header_row (to_excel Sample.messy_shown))
     <= List.length Sample.messy + 2.
Proof.
  assert (rectangular Sample.messy) as R.
  { intros l s H. vm_compute in H.
    repeat (destruct H as [H|H]; [inversion H; reflexivity|]). destruct H. }
  assert (exports (app Sample.failing (Some (ReadOk Sample.messy)))
            (to_excel Sample.messy_shown)) as X.
  { exists "⬇️ Download Hasil Analisis (Excel)", "umkm_analysis.xlsx", xlsx_mime.
    vm_compute. nth_event 14. }
  split; [exact R|]. split; [exact X|].
  destruct (sheet_shape Sample.failing Sample.messy _ R X) as (N & _ & W).
  split; [exact N | exact W].
Defined.


Lemma trimming_settles_labels_witness :
  In "Budget" (columns (strip_columns Sample.messy))
  /\ Str.lstrip "Budget" = "Budget" /\ Str.rstrip "Budget" = "Budget".
Proof.
  assert (In "Budget" (columns (strip_columns Sample.messy))) as I
    by (vm_compute; nth_event 1).
  split; [exact I|].
  exact (proj2 (proj2 (trimming_settles_labels Sample.messy)) "Budget" I).
Defined.

Lemma data_independent_of_insight_config_witness :
  (forall t, text_to_float Sample.offline t = text_to_float Sample.failing t)
  /\ displays (app Sample.offline (Some (ReadOk Sample.messy))) Sample.messy_shown
  /\ displays (app Sample.failing (Some (ReadOk Sample.messy))) Sample.messy_shown.
Proof.
  assert (forall t, text_to_float Sample.offline t = text_to_float Sample.failing t)
    as T by (intros t; reflexivity).
  assert (displays (app Sample.offline (Some (ReadOk Sample.messy)))
            Sample.messy_shown) as D by (vm_compute; nth_event 4).
  split; [exact T|]. split; [exact D|].
  exact (proj1 (proj1 (data_independent_of_insight_config Sample.offline
                         Sample.failing (Some (ReadOk Sample.messy)) T)
                  Sample.messy_shown) D).
Defined.

Lemma shown_table_is_fixed_point_witness :
  displays (app Sample.failing (Some (ReadOk Sample.messy))) Sample.messy_shown
  /\ strip_columns Sample.messy_shown = Sample.messy_shown
  /\ analyse Sample.failing Sample.messy_shown = Ok Sample.messy_shown
  /\ displays (app Sample.failing (Some (ReadOk Sample.messy_shown)))
       Sample.messy_shown.
Proof.
  assert (displays (app Sample.failing (Some (ReadOk Sample.messy)))
            Sample.messy_shown) as D by (vm_compute; nth_event 4).
  split; [exact D|].
  exact (shown_table_is_fixed_point Sample.failing
           (Some (ReadOk Sample.messy)) Sample.messy_shown D).
Defined.

Lemma undefined_pct_exported_empty_witness :
  rectangular Sample.messy
  /\ exports (app Sample.failing (Some (ReadOk Sample.messy)))
       (to_excel Sample.messy_shown)
  /\ nth_error (header_row (to_excel Sample.messy_shown)) 5 = Some "Variance %"
  /\ number_at Sample.messy_shown "Budget" 1 = Some 0%float
  /\ PrimFloat.eqb 0%float 0%float = true
  /\ sheet_cell (to_excel Sample.messy_shown) 1 5 = Some Empty.
Proof.
  assert (rectangular Sample.messy) as R.
  { intros l s H. vm_compute in H.
    repeat (destruct H as [H|H]; [inversion H; reflexivity|]). destruct H. }
  assert (exports (app Sample.failing (Some (ReadOk Sample.messy)))
            (to_excel Sample.messy_shown)) as X.
  { exists "⬇️ Download Hasil Analisis (Excel)", "umkm_analysis.xlsx", xlsx_mime.
    vm_compute. nth_event 14. }
  split; [exact R|]. split; [exact X|]. split; [reflexivity|].
  split; [reflexivity|]. split; [reflexivity|].
  destruct (undefined_pct_exported_empty Sample.failing Sample.messy _ R X)
    as (df & D & K).
  assert (df = Sample.messy_shown) as ->.
  { apply displays_inv in D. destruct D as (df0 & E & _ & A).
    inversion E; subst df0. vm_compute in A. now inversion A. }
  exact (K 1 5 0%float eq_refl eq_refl eq_refl).
Defined.

Lemma figures_depend_on_budget_and_actual_only_witness :
  displays (app Sample.offline (Some (ReadOk Sample.rent_supplies)))
    Sample.rent_supplies_shown
  /\ displays (app Sample.offline (Some (ReadOk More.other_categories)))
       More.other_categories_shown
  /\ getitem (strip_columns Sample.rent_supplies) "Budget"
     = getitem (strip_columns More.other_categories) "Budget"
  /\ getitem (strip_columns Sample.rent_supplies) "Actual"
     = getitem (strip_columns More.other_categories) "Actual"
  /\ getitem Sample.rent_supplies_shown "Variance"
     = getitem More.other_categories_shown "Variance"
  /\ kpi_summary Sample.rent_supplies_shown
     = kpi_summary More.other_categories_shown.
Proof.
  assert (displays (app Sample.offline (Some (ReadOk Sample.rent_supplies)))
            Sample.rent_supplies_shown) as D by (vm_compute; nth_event 4).
  assert (displays (app Sample.offline (Some (ReadOk More.other_categories)))
            More.other_categories_shown) as D' by (vm_compute; nth_event 4).
  split; [exact D|]. split; [exact D'|].
  split; [reflexivity|]. split; [reflexivity|].
  destruct (figures_depend_on_budget_and_actual_only Sample.offline
              Sample.rent_supplies More.other_categories
              Sample.rent_supplies_shown More.other_categories_shown
              [Num 1000; Num 500]%float [Num 1200; Num 400]%float
              D D' eq_refl eq_refl eq_refl eq_refl) as (V & _ & K).
  split; [exact V | exact K].
Defined.
